(** * Annotation transfer of NCBI feature tables ([ncbi.py], [tbl_transfer])

    A shallow embedding of [fasta_chrlens] and [tbl_transfer] and the
    properties of the line classifier, the coordinate remapping policy and
    the qualifier propagation rules.

    Text is modelled as [string] (8-bit characters); the feature-table
    format is ASCII, and the Python built-ins used by the source
    ([str.rstrip], [str.strip], [str.split], [str.join], [str.startswith],
    [str.endswith], [in], [int], [str]) are modelled on ASCII text with the
    behaviour of Python 3.  An [int] is a [Z]; the interpreter's limit on
    the number of digits of a decimal conversion is not modelled.  The file
    objects are a list of raw lines read and a list of strings written. *)

From Stdlib Require Import ZArith Lia Bool Ascii String List.
From Stdlib Require Import DecimalString DecimalPos DecimalZ DecimalFacts.
From stdpp Require Import gmap strings list fin_maps.

Local Open Scope string_scope.
Local Open Scope Z_scope.

(** ** Python built-ins on text *)

Module Py.

Definition TAB : ascii := "009"%char.
Definition LF : ascii := "010"%char.
Definition CR : ascii := "013"%char.

(** [str.isspace] on an ASCII character: 9..13, 28..31 and the space. *)
Definition isspace (c : ascii) : bool :=
  let n := N_of_ascii c in
  ((9 <=? n) && (n <=? 13) || (28 <=? n) && (n <=? 32))%N.

Definition isdigit (c : ascii) : bool :=
  let n := N_of_ascii c in ((48 <=? n) && (n <=? 57))%N.

(** [s.startswith(p)] *)
Definition startswith (p s : string) : bool := String.prefix p s.

(** [s.endswith(p)] *)
Definition endswith (p s : string) : bool :=
  (String.length p <=? String.length s)%nat
  && String.eqb
       (substring (String.length s - String.length p) (String.length p) s) p.

(** [s[n:]] *)
Definition slice_from (n : nat) (s : string) : string :=
  substring n (String.length s - n) s.

(** [s[n:-m]] for [m > 0]: from index [n] up to [len(s) - m], empty when the
    bounds cross. *)
Definition slice_between (n m : nat) (s : string) : string :=
  substring n (String.length s - m - n) s.

(** [s.lstrip(chars)] with the character set given as a predicate. *)
Fixpoint lstrip (chars : ascii -> bool) (s : string) : string :=
  match s with
  | "" => ""
  | String c r => if chars c then lstrip chars r else s
  end.

(** [s.rstrip(chars)] *)
Fixpoint rstrip (chars : ascii -> bool) (s : string) : string :=
  match s with
  | "" => ""
  | String c r =>
      match rstrip chars r with
      | "" => if chars c then "" else String c ""
      | r' => String c r'
      end
  end.

(** [s.strip()] *)
Definition strip (s : string) : string := rstrip isspace (lstrip isspace s).

Definition is_crlf (c : ascii) : bool := Ascii.eqb c CR || Ascii.eqb c LF.

(** [s.split(sep)] for a one-character separator: never the empty list. *)
Fixpoint split (sep : ascii) (s : string) : list string :=
  match s with
  | "" => [""]
  | String c r =>
      if Ascii.eqb c sep then "" :: split sep r
      else match split sep r with
           | [] => [String c ""]
           | w :: ws => String c w :: ws
           end
  end.

(** [sep.join(l)] *)
Fixpoint join (sep : string) (l : list string) : string :=
  match l with
  | [] => ""
  | x :: xs =>
      match xs with
      | [] => x
      | _ :: _ => x +:+ sep +:+ join sep xs
      end
  end.

(** [pat in s] *)
Fixpoint contains (pat s : string) : bool :=
  String.prefix pat s
  || match s with
     | "" => false
     | String _ r => contains pat r
     end.

(** [str(z)] for an [int]: decimal digits, a leading [-] when negative. *)
Definition str (z : Z) : string := NilZero.string_of_int (Z.to_int z).

(** Underscores of an integer literal: each one between two digits. *)
Fixpoint drop_underscores (prev : bool) (s : string) : option string :=
  match s with
  | "" => Some ""
  | String c r =>
      if Ascii.eqb c "_" then
        match r with
        | String d _ =>
            if prev && isdigit d then drop_underscores false r else None
        | "" => None
        end
      else String c <$> drop_underscores (isdigit c) r
  end.

Definition int_digits (s : string) : option Z :=
  match s with
  | "" => None
  | _ =>
      s' ← drop_underscores false s;
      d ← NilEmpty.uint_of_string s';
      Some (Z.of_uint d)
  end.

(** The whitespace [int] skips around an ASCII literal: 9..13 and the
    space, not 28..31. *)
Definition isspace_c (c : ascii) : bool :=
  let n := N_of_ascii c in
  ((9 <=? n) && (n <=? 13) || (n =? 32))%N.

(** [int(s)] in base 10: [None] stands for [ValueError].  Surrounding
    whitespace is ignored, one sign is accepted, then digits. *)
Definition int (s : string) : option Z :=
  match rstrip isspace_c (lstrip isspace_c s) with
  | "" => None
  | String c r =>
      if Ascii.eqb c "+" then int_digits r
      else if Ascii.eqb c "-" then Z.opp <$> int_digits r
      else int_digits (String c r)
  end.

(** Every character of [s] satisfies [p]. *)
Fixpoint all_chars (p : ascii -> bool) (s : string) : bool :=
  match s with
  | "" => true
  | String c r => p c && all_chars p r
  end.

(** [s[:-n]] for [n > 0]: all but the last [n] characters. *)
Definition slice_to (n : nat) (s : string) : string :=
  substring 0 (String.length s - n) s.

(** [c in s] for one character. *)
Fixpoint has_char (c : ascii) (s : string) : bool :=
  match s with
  | "" => false
  | String d r => Ascii.eqb d c || has_char c r
  end.

(** [s.split()]: the runs of characters that are not whitespace. *)
Fixpoint split_ws (s : string) : list string :=
  match s with
  | "" => []
  | String c r =>
      if isspace c then split_ws r
      else match r with
           | "" => [String c ""]
           | String d _ =>
               if isspace d then String c "" :: split_ws r
               else match split_ws r with
                    | w :: ws => String c w :: ws
                    | [] => [String c ""]
                    end
           end
  end.

End Py.

(** ** [os.path] on POSIX paths *)

Module PosixPath.

(** [os.path.basename(p)]: [p[p.rfind('/')+1:]]. *)
Fixpoint basename (p : string) : string :=
  match p with
  | "" => ""
  | String c r =>
      if Py.has_char "/" r then basename r
      else if Ascii.eqb c "/" then r
      else p
  end.

(** [os.path.join(a, b)] *)
Definition join (a b : string) : string :=
  if Py.startswith "/" b then b
  else if String.eqb a "" || Py.endswith "/" a then a +:+ b
  else a +:+ "/" +:+ b.

End PosixPath.

(** ** The transfer engine *)

(** The coordinate mapper [interhost.CoordMapper] is an external
    collaborator: [cmap.mapAtoB(seqid)] gives the alternate sequence id or
    raises when the id is unknown ([None] here), and
    [cmap.mapAtoB(seqid, pos, side)[1]] gives the mapped position or Python's
    [None] when the position has no counterpart. *)
Record CoordMapper := {
  mapAtoB_chrom : string -> option string;
  mapAtoB_pos : string -> Z -> Z -> option Z
}.

(** A record yielded by [Bio.SeqIO.parse(inf, 'fasta')]. *)
Record SeqRecord := { rec_id : string; rec_seq : string }.

(** [fasta_chrlens]: [out[seq.id] = len(seq)] for each record in turn. *)
Definition fasta_chrlens (fasta : list SeqRecord) : gmap string Z :=
  foldl (fun out seq =>
           <[rec_id seq := Z.of_nat (String.length (rec_seq seq))]> out)
        ∅ fasta.

(** The exceptions the loop can raise. *)
Inductive error :=
| NotFeatureRecord
| NotGenBankAccession
| OneColumn
| ValueError (s : string)
| UnboundLocal (v : string)
| MapperError (id : string)
| KeyError (k : string).

(** The loop's local variables; [None] is a variable not yet assigned. *)
Record locals := {
  seqid : option string;
  altid : option string;
  feature_keep : option bool
}.

Definition unbound : locals :=
  {| seqid := None; altid := None; feature_keep := None |}.

Definition set_keep (b : bool) (st : locals) : locals :=
  {| seqid := seqid st; altid := altid st; feature_keep := Some b |}.

(** The cells of [row]: text, an [int], or Python's [None]. *)
Inductive value :=
| VStr (s : string)
| VInt (z : Z)
| VNone.

Definition of_mapped (o : option Z) : value :=
  match o with
  | Some z => VInt z
  | None => VNone
  end.

(** Truth value of a cell, as [if row[0] and row[1]] tests it. *)
Definition truth (v : value) : bool :=
  match v with
  | VStr s => negb (String.eqb s "")
  | VInt z => negb (z =? 0)
  | VNone => false
  end.

(** [v == None] *)
Definition is_none (v : value) : bool :=
  match v with
  | VNone => true
  | _ => false
  end.

(** [str(v)] *)
Definition str_value (v : value) : string :=
  match v with
  | VStr s => s
  | VInt z => Py.str z
  | VNone => "None"
  end.

Definition tab : string := String Py.TAB "".

(** ['\t'.join(map(str,row))] *)
Definition join_row (r0 r1 : value) (rest : list string) : string :=
  Py.join tab (str_value r0 :: str_value r1 :: rest).

(** One turn of the loop either raises, or goes on with new locals and
    possibly a line handed to [outf.write(line+'\n')]. *)
Inductive step :=
| Raise (e : error)
| Next (st : locals) (w : option string).

(** Lines 39-49: a line starting with [>]. *)
Definition header_line (cmap : CoordMapper) (st : locals) (line : string)
  : step :=
  if negb (Py.startswith ">Feature " line) then Raise NotFeatureRecord
  else
    let sid := Py.strip (Py.slice_from (String.length ">Feature ") line) in
    if negb (Py.startswith "gb|" sid && Py.endswith "|" sid
             && (4 <? String.length sid)%nat)
    then Raise NotGenBankAccession
    else
      let sid := Py.slice_between 3 1 sid in
      match mapAtoB_chrom cmap sid with
      | None => Raise (MapperError sid)
      | Some aid =>
          Next {| seqid := Some sid; altid := Some aid;
                  feature_keep := Some true |}
               (Some (">Feature " +:+ aid))
      end.

(** Lines 57-63: the two endpoints through the mapper, biased by strand. *)
Definition map_endpoints (cmap : CoordMapper) (sid : string) (a b : Z)
  : value * value :=
  if b >=? a then
    (of_mapped (mapAtoB_pos cmap sid a (-1)),
     of_mapped (mapAtoB_pos cmap sid b 1))
  else
    (of_mapped (mapAtoB_pos cmap sid a 1),
     of_mapped (mapAtoB_pos cmap sid b (-1))).

(** Lines 65-81: keep, drop or clip. *)
Definition resolve (alt_chrlens : gmap string Z) (oob_clip : bool)
    (st : locals) (r0 r1 : value) (rest : list string) : step :=
  if truth r0 && truth r1 then
    Next (set_keep true st) (Some (join_row r0 r1 rest))
  else if is_none r0 && is_none r1 then
    Next (set_keep false st) None
  else if oob_clip then
    let r0' := if is_none r0 then VStr "<1" else r0 in
    if is_none r1 then
      match altid st with
      | None => Raise (UnboundLocal "altid")
      | Some aid =>
          match alt_chrlens !! aid with
          | None => Raise (KeyError aid)
          | Some len =>
              Next st (Some (join_row r0' (VStr (">" +:+ Py.str len)) rest))
          end
      end
    else Next st (Some (join_row r0' r1 rest))
  else Next (set_keep false st) None.

(** Lines 50-81: a line that starts neither with [>] nor with a tab. *)
Definition coordinate_line (cmap : CoordMapper) (alt_chrlens : gmap string Z)
    (oob_clip : bool) (st : locals) (line : string) : step :=
  match Py.split Py.TAB line with
  | c0 :: c1 :: rest =>
      match Py.int c0 with
      | None => Raise (ValueError c0)
      | Some a =>
          match Py.int c1 with
          | None => Raise (ValueError c1)
          | Some b =>
              match seqid st with
              | None => Raise (UnboundLocal "seqid")
              | Some sid =>
                  let '(r0, r1) := map_endpoints cmap sid a b in
                  resolve alt_chrlens oob_clip st r0 r1 rest
              end
          end
      end
  | _ => Raise OneColumn
  end.

(** Lines 82-89: a line that starts with a tab. *)
Definition qualifier_line (st : locals) (line : string) : step :=
  match feature_keep st with
  | None => Raise (UnboundLocal "feature_keep")
  | Some false => Next st None
  | Some true =>
      if Py.contains "protein_id" line then Next st None
      else Next st (Some line)
  end.

(** The classes of a line, after [rstrip], in the order the loop tests
    them. *)
Inductive line_class := Blank | Header | Coordinate | Qualifier.

Definition classify (line : string) : line_class :=
  if String.eqb line "" then Blank
  else if Py.startswith ">" line then Header
  else if negb (Py.startswith tab line) then Coordinate
  else Qualifier.

(** The body of the loop, lines 36-90. *)
Definition process_line (cmap : CoordMapper) (alt_chrlens : gmap string Z)
    (oob_clip : bool) (st : locals) (raw : string) : step :=
  let line := Py.rstrip Py.is_crlf raw in
  match classify line with
  | Blank => Next st (Some line)
  | Header => header_line cmap st line
  | Coordinate => coordinate_line cmap alt_chrlens oob_clip st line
  | Qualifier => qualifier_line st line
  end.

Definition newline : string := String Py.LF "".

(** How the loop ends: out of lines, or on an exception. *)
Inductive outcome :=
| Done (st : locals)
| Failed (e : error).

(** The loop over the lines of [ref_tbl], from given locals: the strings
    written to [outf], in order, and how the loop ended. *)
Fixpoint run (cmap : CoordMapper) (alt_chrlens : gmap string Z)
    (oob_clip : bool) (st : locals) (lines : list string)
  : list string * outcome :=
  match lines with
  | [] => ([], Done st)
  | raw :: lines' =>
      match process_line cmap alt_chrlens oob_clip st raw with
      | Raise e => ([], Failed e)
      | Next st' w =>
          let '(out, r) := run cmap alt_chrlens oob_clip st' lines' in
          (match w with
           | Some line => (line +:+ newline) :: out
           | None => out
           end, r)
      end
  end.

(** [tbl_transfer]: [cmap] stands for [interhost.CoordMapper(ref_fasta,
    alt_fasta)], [ref_tbl] for the lines read from the reference table and
    [alt_fasta] for the records of the alternate assembly.  The result is
    what was written to [out_tbl] and the exception raised, if any. *)
Definition tbl_transfer (cmap : CoordMapper) (ref_tbl : list string)
    (alt_fasta : list SeqRecord) (oob_clip : bool)
  : list string * option error :=
  let alt_chrlens := fasta_chrlens alt_fasta in
  let '(out, r) := run cmap alt_chrlens oob_clip unbound ref_tbl in
  (out, match r with
        | Done _ => None
        | Failed e => Some e
        end).

(** ** Sample data *)

Module Sample.

(** A mapper that knows the reference [KJ660346.2] and sends it to [alt1].
    Reference positions 3..10 lie 2 further than their counterparts, 14..17
    lie 5 further; 11..13 are missing from [alt1] and round to 8 or to 9;
    every other position is unmapped. *)
Definition cmap : CoordMapper :=
  {| mapAtoB_chrom := fun s =>
       if String.eqb s "KJ660346.2" then Some "alt1" else None;
     mapAtoB_pos := fun _ p side =>
       if (3 <=? p) && (p <=? 10) then Some (p - 2)
       else if (11 <=? p) && (p <=? 13) then
              Some (if side <? 0 then 8 else 9)
       else if (14 <=? p) && (p <=? 17) then Some (p - 5)
       else None |}.

Definition alt_fasta : list SeqRecord :=
  [ {| rec_id := "alt1"; rec_seq := "ACGTACGTACGT" |} ].

Definition T (l : list string) : string := Py.join tab l.
Definition nl (s : string) : string := s +:+ newline.

Definition doc : list string :=
  [ nl ">Feature gb|KJ660346.2|";
    nl (T ["30"; "40"; "gene"]);
    nl (T [""; ""; ""; "gene"; "far"]);
    nl (T ["15"; "25"; "CDS"]);
    nl (T [""; ""; ""; "product"; "polymerase"]);
    nl (T ["5"; "12"; "gene"]);
    nl (T [""; ""; ""; "protein_id"; "AAA1"]);
    nl (T [""; ""; ""; "gene"; "NP"]) ].

(** A mapper that shifts every position down by 5, and one that mirrors
    positions around 50. *)
Definition shift5 : CoordMapper :=
  {| mapAtoB_chrom := fun _ => Some "alt1";
     mapAtoB_pos := fun _ p _ => Some (p - 5) |}.

Definition mirror : CoordMapper :=
  {| mapAtoB_chrom := fun _ => Some "alt1";
     mapAtoB_pos := fun _ p _ => Some (100 - p) |}.

(** The locals once the Header line of [doc] has been read. *)
Definition st1 : locals :=
  {| seqid := Some "KJ660346.2"; altid := Some "alt1";
     feature_keep := Some true |}.

End Sample.

(** ** Vocabulary of the properties *)

(** A raw line as the loop sees it, line terminators removed. *)
Definition stripped (raw : string) : string := Py.rstrip Py.is_crlf raw.

(** The columns of a Coordinate line whose first two columns are integers:
    start, end and the remaining columns. *)
Definition parse_coordinate (raw : string) : option (Z * Z * list string) :=
  match classify (stripped raw) with
  | Coordinate =>
      match Py.split Py.TAB (stripped raw) with
      | c0 :: c1 :: rest =>
          a ← Py.int c0; b ← Py.int c1; Some (a, b, rest)
      | _ => None
      end
  | _ => None
  end.

(** The accession text of a Header line, still in its wrapper. *)
Definition wrapped_accession (line : string) : string :=
  Py.strip (Py.slice_from (String.length ">Feature ") line).

(** The wrapper convention [gb|ACCESSION|] as line 44 tests it. *)
Definition gb_wrapped (sid : string) : bool :=
  Py.startswith "gb|" sid && Py.endswith "|" sid
  && (4 <? String.length sid)%nat.

(** A malformed Header line, or a malformed Coordinate line. *)
Definition malformed (raw : string) : bool :=
  let line := stripped raw in
  match classify line with
  | Header =>
      negb (Py.startswith ">Feature " line)
      || negb (gb_wrapped (wrapped_accession line))
  | Coordinate =>
      match Py.split Py.TAB line with
      | c0 :: c1 :: _ =>
          match Py.int c0, Py.int c1 with
          | Some _, Some _ => false
          | _, _ => true
          end
      | _ => true
      end
  | _ => false
  end.

(** A Header line precedes every Coordinate and Qualifier line: the first
    line that is not blank, if any, is a Header line. *)
Fixpoint header_first (doc : list string) : bool :=
  match doc with
  | [] => true
  | raw :: doc' =>
      match classify (stripped raw) with
      | Blank => header_first doc'
      | Header => true
      | _ => false
      end
  end.

Definition is_blank (raw : string) : bool := String.eqb (stripped raw) "".

Definition is_qualifier (raw : string) : bool :=
  match classify (stripped raw) with
  | Qualifier => true
  | _ => false
  end.

(** The mapper of an assembly onto itself. *)
Definition identity_cmap : CoordMapper :=
  {| mapAtoB_chrom := fun s => Some s;
     mapAtoB_pos := fun _ p _ => Some p |}.

(** A line with its Header wrapper taken off: [>Feature gb|ACC|] becomes
    [>Feature ACC], any other line is left as it is. *)
Definition unwrapped (raw : string) : string :=
  match classify (stripped raw) with
  | Header =>
      (">Feature "
       +:+ Py.slice_between 3 1 (wrapped_accession (stripped raw)))
      +:+ newline
  | _ => raw
  end.

(** A line an identity transfer can hand back as it is: a blank line, a
    well-formed Header line, a Coordinate line whose endpoints are non-zero
    integers written the way [str] writes them, or a Qualifier line without
    [protein_id]; and it ends in one line feed. *)
Definition verbatim (raw : string) : bool :=
  let line := stripped raw in
  String.eqb raw (line +:+ newline)
  && match classify line with
     | Blank => true
     | Header => negb (malformed raw)
     | Coordinate =>
         match Py.split Py.TAB line with
         | c0 :: c1 :: _ =>
             match Py.int c0, Py.int c1 with
             | Some a, Some b =>
                 String.eqb (Py.str a) c0 && String.eqb (Py.str b) c1
                 && negb (a =? 0) && negb (b =? 0)
             | _, _ => false
             end
         | _ => false
         end
     | Qualifier => negb (Py.contains "protein_id" line)
     end.

(** All three locals are assigned. *)
Definition bound (st : locals) : bool :=
  match seqid st, altid st, feature_keep st with
  | Some _, Some _, Some _ => true
  | _, _, _ => false
  end.

(** The accession of a Header line, out of its wrapper. *)
Definition accession (raw : string) : string :=
  Py.slice_between 3 1 (wrapped_accession (stripped raw)).

(** If the line is a Header line, the mapper knows its accession and the
    length table has an entry for the id it maps it to. *)
Definition header_resolved (cmap : CoordMapper)
    (alt_chrlens : gmap string Z) (raw : string) : bool :=
  match classify (stripped raw) with
  | Header =>
      match mapAtoB_chrom cmap (accession raw) with
      | Some aid =>
          match alt_chrlens !! aid with
          | Some _ => true
          | None => false
          end
      | None => false
      end
  | _ => true
  end.

(** The length table has an entry for every id the mapper gives. *)
Definition lengths_cover (cmap : CoordMapper) (alt_chrlens : gmap string Z)
  : Prop :=
  forall s aid, mapAtoB_chrom cmap s = Some aid -> is_Some (alt_chrlens !! aid).

(** A sequence is active and the retain flag is set. *)
Definition retaining (st : locals) : Prop :=
  is_Some (seqid st) /\ feature_keep st = Some true.

(** The strand of a Coordinate line, [end >= start]. *)
Definition forward (raw : string) : option bool :=
  match parse_coordinate raw with
  | Some (a, b, _) => Some (b >=? a)
  | None => None
  end.

(** The locals are assigned and the alternate id has a length. *)
Definition covered (alt_chrlens : gmap string Z) (st : locals) : Prop :=
  bound st = true
  /\ forall aid, altid st = Some aid -> is_Some (alt_chrlens !! aid).

(** The exception is the read of a local variable before its assignment. *)
Definition is_unbound_read (e : error) : bool :=
  match e with
  | UnboundLocal _ => true
  | _ => false
  end.

(** [len(seq)] of a record. *)
Definition seq_len (r : SeqRecord) : Z :=
  Z.of_nat (String.length (rec_seq r)).

(** A cell without a tab. *)
Definition no_tab (s : string) : bool :=
  Py.all_chars (fun c => negb (Ascii.eqb c Py.TAB)) s.

(** A character [str] of an [int] can produce: a digit or the minus sign. *)
Definition sign_or_digit (c : ascii) : bool :=
  Py.isdigit c || Ascii.eqb c "-".

(** Number of elements of a list of lines that satisfy a test. *)
Definition count (p : string -> bool) (l : list string) : nat :=
  List.length (List.filter p l).

(** ** Staging of the submission files *)

(** A call [shutil.copyfile(src, dst)] or [shutil.copy(src, dst)]. *)
Record copyfile := { copy_src : string; copy_dst : string }.

(** [fasta2fsa]: the copy it asks [shutil.copyfile] for and the file name
    it returns when that copy is made; the exceptions of [shutil.copyfile]
    are not modelled. *)
Definition fasta2fsa (infname outdir : string) : copyfile * string :=
  let outfname := PosixPath.basename infname in
  let outfname :=
    if Py.endswith ".fasta" outfname then Py.slice_to 6 outfname
    else if Py.endswith ".fa" outfname then Py.slice_to 3 outfname
    else outfname in
  let outfname :=
    if negb (Py.endswith ".fsa" outfname) then outfname +:+ ".fsa"
    else outfname in
  let outfname := PosixPath.join outdir outfname in
  ({| copy_src := infname; copy_dst := outfname |}, outfname).

(** The copies made by the loop of [prep_genbank_files] (lines 140-144)
    over the files [glob.glob] found; [master_source_table] is [None] or a
    path, and an empty path counts as none. *)
Definition prep_genbank_files_copies (fastas : list string)
    (annotDir : string) (master_source_table : option string)
  : list copyfile :=
  List.flat_map
    (fun fn =>
       fst (fasta2fsa fn annotDir)
       :: match master_source_table with
          | Some m =>
              if String.eqb m "" then []
              else
                [ {| copy_src := m;
                     copy_dst :=
                       PosixPath.join annotDir
                         (Py.slice_to 6 (PosixPath.basename fn) +:+ ".src")
                  |} ]
          | None => []
          end)
    fastas.

(** The last record of a file with a given id. *)
Definition last_record (k : string) (fasta : list SeqRecord)
  : option SeqRecord :=
  List.find (fun r => String.eqb (rec_id r) k) (List.rev fasta).

(** The retain flag with clip mode off is the one with clip mode on, or is
    cleared; the sequence ids are the same. *)
Definition clip_related (st_off st_on : locals) : Prop :=
  seqid st_off = seqid st_on /\ altid st_off = altid st_on
  /\ (feature_keep st_off = feature_keep st_on
      \/ feature_keep st_off = Some false).

(** ** The SRA submission table *)

(** [metadata]: a dict of dicts, sample name to field to text. *)
Abbreviation metadata := (gmap string (gmap string string)).

(** The exceptions of [prep_sra_table]: a missing column, a failed
    [assert]. *)
Inductive sra_error :=
| IndexError
| AssertionError.

(** [metadata.setdefault(k, {})] *)
Definition setdefault (k : string) (m : metadata) : metadata :=
  match m !! k with
  | Some _ => m
  | None => <[k := ∅]> m
  end.

(** [metadata[k][f] = v], for a key that is there. *)
Definition set_item (k f v : string) (m : metadata) : metadata :=
  alter (fun d => <[f := v]> d) k m.

(** [metadata[k].get(f, '')], for a key that is there. *)
Definition get_item (k f : string) (m : metadata) : string :=
  default "" (m !! k ≫= fun d => d !! f).

(** One line of the BioSample file, lines 191-194. *)
Definition biosample_line (m : metadata) (line : string)
  : sra_error + metadata :=
  match Py.split Py.TAB (Py.rstrip Py.is_crlf line) with
  | k :: v :: _ => inr (set_item k "biosample_accession" v (setdefault k m))
  | _ => inl IndexError
  end.

(** One line of the MD5 file, lines 197-204.  An [assert] is taken as
    checked. *)
Definition md5_line (m : metadata) (line : string) : sra_error + metadata :=
  match Py.split_ws (Py.rstrip Py.is_crlf line) with
  | sum :: path :: _ =>
      let s := PosixPath.basename path in
      if Py.endswith ".cleaned.bam" s then
        let s := Py.slice_to (String.length ".cleaned.bam") s in
        inr (set_item s "MD5_checksum" sum
               (set_item s "filename" path (setdefault s m)))
      else inl AssertionError
  | _ => inl IndexError
  end.

(** A loop over the lines of an input file that stops at the first
    exception. *)
Fixpoint load (step : metadata -> string -> sra_error + metadata)
    (m : metadata) (lines : list string) : sra_error + metadata :=
  match lines with
  | [] => inr m
  | line :: lines' =>
      match step m line with
      | inl e => inl e
      | inr m' => load step m' lines'
      end
  end.

Definition sra_header : list string :=
  ["biosample_accession"; "sample_name"; "library_ID"; "filename";
   "MD5_checksum"].

(** One line of the library file, lines 210-218: the new metadata and the
    row written. *)
Definition library_line (m : metadata) (line : string)
  : sra_error + metadata * string :=
  let lib := Py.rstrip Py.is_crlf line in
  let parts := Py.split "." lib in
  if (1 <? List.length parts)%nat && Py.startswith "l" (List.last parts "")
  then
    let s := Py.join "." (List.removelast parts) in
    let m := set_item s "sample_name" s
               (set_item s "library_ID" lib (setdefault s m)) in
    inr (m, Py.join tab (List.map (fun h => get_item s h m) sra_header))
  else inl AssertionError.

(** The loop over the library file: the rows written, each with its line
    feed, and the exception that stopped it, if any. *)
Fixpoint write_libraries (m : metadata) (lines : list string)
  : list string * option sra_error :=
  match lines with
  | [] => ([], None)
  | line :: lines' =>
      match library_line m line with
      | inl e => ([], Some e)
      | inr (m', row) =>
          let '(out, r) := write_libraries m' lines' in
          ((row +:+ newline) :: out, r)
      end
  end.

(** What [prep_sra_table] leaves behind: an exception before [outFile] was
    opened, or the strings written to [outFile] and the exception that
    stopped the writing, if any. *)
Inductive sra_result :=
| SraNoOutput (e : sra_error)
| SraOutput (written : list string) (e : option sra_error).

(** [prep_sra_table], on the lines of the three input files.  The first
    line of the BioSample file is read and set aside. *)
Definition prep_sra_table (lib_lines biosample_lines md5_lines : list string)
  : sra_result :=
  match load biosample_line ∅ (List.tl biosample_lines) with
  | inl e => SraNoOutput e
  | inr m1 =>
      match load md5_line m1 md5_lines with
      | inl e => SraNoOutput e
      | inr m2 =>
          let '(rows, r) := write_libraries m2 lib_lines in
          SraOutput ((Py.join tab sra_header +:+ newline) :: rows) r
      end
  end.

(** The sample a library line names: its text up to the last dot. *)
Definition sample_of (line : string) : string :=
  Py.join "." (List.removelast (Py.split "." (Py.rstrip Py.is_crlf line))).

(** The library line passes the [assert] of line 212. *)
Definition library_ok (line : string) : bool :=
  let parts := Py.split "." (Py.rstrip Py.is_crlf line) in
  (1 <? List.length parts)%nat && Py.startswith "l" (List.last parts "").

(** The row of a library line, from the metadata loaded from the BioSample
    and MD5 files. *)
Definition sra_row (m : metadata) (line : string) : string :=
  Py.join tab
    [ get_item (sample_of line) "biosample_accession" m;
      sample_of line;
      Py.rstrip Py.is_crlf line;
      get_item (sample_of line) "filename" m;
      get_item (sample_of line) "MD5_checksum" m ].

(** The fields the BioSample and MD5 files fill. *)
Definition loaded_field (f : string) : bool :=
  String.eqb f "biosample_accession" || String.eqb f "filename"
  || String.eqb f "MD5_checksum".

(** The accession the data lines of the BioSample file give a sample: the
    second column of the last line whose first column is the sample. *)
Definition biosample_of (k : string) (data : list string) : option string :=
  match
    List.find
      (fun line =>
         match Py.split Py.TAB (Py.rstrip Py.is_crlf line) with
         | c0 :: _ => String.eqb c0 k
         | [] => false
         end)
      (List.rev data)
  with
  | Some line => List.nth_error (Py.split Py.TAB (Py.rstrip Py.is_crlf line)) 1
  | None => None
  end.

(** The line, without its terminator, holds a tab. *)
Definition has_tab (line : string) : bool :=
  Py.has_char Py.TAB (Py.rstrip Py.is_crlf line).

(** A field of a whitespace-separated line: not empty, no whitespace. *)
Definition token (t : string) : bool :=
  negb (String.eqb t "") && Py.all_chars (fun c => negb (Py.isspace c)) t.

(** Sample files for the SRA table. *)
Module SraSample.

Definition biosamples : list string :=
  [ Sample.nl (Sample.T ["sample"; "BioSample"]);
    Sample.nl (Sample.T ["S1"; "SAMN001"]);
    Sample.nl (Sample.T ["S2.x"; "SAMN002"; "extra"]) ].

Definition md5s : list string :=
  [ Sample.nl "0cc175b9c0f1b6a8  bams/S1.cleaned.bam";
    Sample.nl "92eb5ffee6ae2fec   /data/S3.cleaned.bam" ].

Definition libs : list string :=
  [ Sample.nl "S1.l1"; Sample.nl "S2.x.l7"; Sample.nl "S3.lane2" ].

End SraSample.

(** ** Facts about the text functions *)

Example int_ex1 : Py.int " 0100 " = Some 100. Proof. reflexivity. Qed.
Example int_ex2 : Py.int "-12" = Some (-12). Proof. reflexivity. Qed.
Example int_ex3 : Py.int "1_000" = Some 1000. Proof. reflexivity. Qed.
Example int_ex4 : Py.int "1__0" = None. Proof. reflexivity. Qed.
Example int_ex5 : Py.int "gene" = None. Proof. reflexivity. Qed.
Example int_ex6 : Py.int "" = None. Proof. reflexivity. Qed.
Example int_ex7 : Py.int "-" = None. Proof. reflexivity. Qed.
Example int_ex8 : Py.int (String "028" "5") = None. Proof. reflexivity. Qed.
Example int_ex9 : Py.int (String "011" "5") = Some 5. Proof. reflexivity. Qed.
Example strip_ex1 : Py.strip (String "028" "5") = "5". Proof. reflexivity. Qed.
Example str_ex1 : Py.str (-120) = "-120". Proof. reflexivity. Qed.
Example str_ex2 : Py.str 0 = "0". Proof. reflexivity. Qed.
Example split_ex1 : Py.split Py.TAB (String Py.TAB "ab") = [""; "ab"].
Proof. reflexivity. Qed.
Example endswith_ex1 : Py.endswith "|" "gb|X|" = true. Proof. reflexivity. Qed.
Example slice_ex1 : Py.slice_between 3 1 "gb|X|" = "X". Proof. reflexivity. Qed.
Example contains_ex1 : Py.contains "protein_id" "xxprotein_idyy" = true.
Proof. reflexivity. Qed.

Section Text.

Lemma split_nonempty sep s : Py.split sep s <> [].
Proof.
  destruct s as [|c r]; simpl; [discriminate|].
  destruct (Ascii.eqb c sep); [discriminate|].
  destruct (Py.split sep r); discriminate.
Qed.

Lemma join_cons2 sep x y l :
  Py.join sep (x :: y :: l) = x +:+ sep +:+ Py.join sep (y :: l).
Proof. reflexivity. Qed.

(** Joining the columns of a line with the separator gives the line back. *)
Lemma join_split s : Py.join tab (Py.split Py.TAB s) = s.
Proof.
  induction s as [|c r IH]; [reflexivity|].
  cbn [Py.split].
  destruct (Ascii.eqb c Py.TAB) eqn:E.
  - apply Ascii.eqb_eq in E. subst c.
    destruct (Py.split Py.TAB r) as [|w ws] eqn:Er.
    + exfalso. eapply split_nonempty. exact Er.
    + rewrite join_cons2, IH. reflexivity.
  - destruct (Py.split Py.TAB r) as [|w ws] eqn:Er.
    + exfalso. eapply split_nonempty. exact Er.
    + destruct ws as [|w' ws'].
      * cbn in IH |- *. congruence.
      * rewrite join_cons2 in IH |- *. rewrite <- IH. reflexivity.
Qed.

Lemma split_no_tab s : Forall (fun w => no_tab w = true) (Py.split Py.TAB s).
Proof.
  induction s as [|c r IH]; cbn [Py.split].
  - repeat constructor.
  - destruct (Ascii.eqb c Py.TAB) eqn:E.
    + constructor; [reflexivity|exact IH].
    + destruct (Py.split Py.TAB r) as [|w ws]; [repeat constructor; cbn; now rewrite E|].
      inversion IH; subst. constructor; [|assumption].
      unfold no_tab in *. cbn. rewrite E. cbn. assumption.
Qed.

Lemma split_single x : no_tab x = true -> Py.split Py.TAB x = [x].
Proof.
  induction x as [|c r IH]; [reflexivity|].
  unfold no_tab. cbn. intros H. apply andb_prop in H as [Hc Hr].
  apply negb_true_iff in Hc. rewrite Hc, (IH Hr). reflexivity.
Qed.

Lemma split_app_tab x s :
  no_tab x = true ->
  Py.split Py.TAB (x +:+ tab +:+ s) = x :: Py.split Py.TAB s.
Proof.
  induction x as [|c r IH].
  - intros _. cbn. reflexivity.
  - unfold no_tab. cbn [Py.all_chars]. intros H.
    apply andb_prop in H as [Hc Hr]. apply negb_true_iff in Hc.
    change (String c r +:+ tab +:+ s) with (String c (r +:+ tab +:+ s)).
    cbn [Py.split]. rewrite Hc, (IH Hr). reflexivity.
Qed.

(** Splitting a joined row gives the row back when no cell holds a tab. *)
Lemma split_join l :
  l <> [] -> Forall (fun w => no_tab w = true) l ->
  Py.split Py.TAB (Py.join tab l) = l.
Proof.
  induction l as [|x xs IH]; [congruence|].
  intros _ H. inversion H as [|? ? Hx Hxs]; subst.
  destruct xs as [|y ys].
  - cbn. now apply split_single.
  - rewrite join_cons2, split_app_tab by assumption.
    f_equal. apply IH; [discriminate|assumption].
Qed.

Lemma all_chars_impl (p q : ascii -> bool) s :
  (forall c, p c = true -> q c = true) ->
  Py.all_chars p s = true -> Py.all_chars q s = true.
Proof.
  intros Hpq. induction s as [|c r IH]; [reflexivity|].
  cbn. intros H. apply andb_prop in H as [Hc Hr].
  rewrite (Hpq _ Hc), (IH Hr). reflexivity.
Qed.

Lemma sign_or_digit_facts c :
  sign_or_digit c = true ->
  Ascii.eqb c Py.TAB = false /\ Ascii.eqb c ">" = false
  /\ Py.isspace c = false /\ Ascii.eqb c "_" = false
  /\ Ascii.eqb c "+" = false.
Proof.
  destruct c as [[|] [|] [|] [|] [|] [|] [|] [|]]; vm_compute;
    intros H; try discriminate H; repeat split.
Qed.

Lemma isdigit_sign_or_digit c : Py.isdigit c = true -> sign_or_digit c = true.
Proof. unfold sign_or_digit. intros ->. reflexivity. Qed.

Lemma digits_of_uint d :
  Py.all_chars Py.isdigit (NilEmpty.string_of_uint d) = true.
Proof. induction d; cbn; auto. Qed.

Lemma str_chars z : Py.all_chars sign_or_digit (Py.str z) = true.
Proof.
  assert (Hu : forall d,
             Py.all_chars sign_or_digit (NilZero.string_of_uint d) = true).
  { intros d. destruct d; try reflexivity;
      apply (all_chars_impl Py.isdigit); auto using isdigit_sign_or_digit;
      apply (digits_of_uint (_ d)). }
  unfold Py.str. destruct (Z.to_int z) as [d|d]; cbn.
  - apply Hu.
  - apply Hu.
Qed.

Lemma str_uint_nonempty d : NilZero.string_of_uint d <> "".
Proof. destruct d; discriminate. Qed.

Lemma str_head z :
  exists c r, Py.str z = String c r /\ sign_or_digit c = true.
Proof.
  pose proof (str_chars z) as H.
  destruct (Py.str z) as [|c r] eqn:E.
  - exfalso. unfold Py.str in E.
    destruct (Z.to_int z) as [d|d]; cbn in E; [|discriminate].
    now apply str_uint_nonempty in E.
  - cbn in H. apply andb_prop in H as [Hc _]. eauto.
Qed.

Lemma str_no_tab z : no_tab (Py.str z) = true.
Proof.
  apply (all_chars_impl sign_or_digit); [|apply str_chars].
  intros c Hc. apply sign_or_digit_facts in Hc as (-> & _). reflexivity.
Qed.

Lemma lstrip_head chars c r :
  chars c = false -> Py.lstrip chars (String c r) = String c r.
Proof. intros H. cbn. now rewrite H. Qed.

Lemma rstrip_id chars s :
  Py.all_chars (fun c => negb (chars c)) s = true -> Py.rstrip chars s = s.
Proof.
  induction s as [|c r IH]; [reflexivity|].
  cbn. intros H. apply andb_prop in H as [Hc Hr].
  apply negb_true_iff in Hc. rewrite (IH Hr), Hc. now destruct r.
Qed.

Lemma strip_str z : Py.strip (Py.str z) = Py.str z.
Proof.
  unfold Py.strip. destruct (str_head z) as (c & r & E & Hc).
  pose proof (str_chars z) as Hall.
  rewrite E in *.
  rewrite lstrip_head by (now apply sign_or_digit_facts in Hc).
  apply rstrip_id. apply (all_chars_impl sign_or_digit); [|exact Hall].
  intros c' Hc'. apply sign_or_digit_facts in Hc' as (_ & _ & -> & _).
  reflexivity.
Qed.

Lemma sign_or_digit_not_space_c c :
  sign_or_digit c = true -> Py.isspace_c c = false.
Proof.
  destruct c as [[|] [|] [|] [|] [|] [|] [|] [|]]; vm_compute;
    intros H; try discriminate H; reflexivity.
Qed.

Lemma strip_c_str z :
  Py.rstrip Py.isspace_c (Py.lstrip Py.isspace_c (Py.str z)) = Py.str z.
Proof.
  destruct (str_head z) as (c & r & E & Hc).
  pose proof (str_chars z) as Hall.
  rewrite E in *.
  rewrite lstrip_head by (now apply sign_or_digit_not_space_c).
  apply rstrip_id. apply (all_chars_impl sign_or_digit); [|exact Hall].
  intros c' Hc'. now rewrite (sign_or_digit_not_space_c _ Hc').
Qed.

Lemma drop_underscores_digits b s :
  Py.all_chars Py.isdigit s = true -> Py.drop_underscores b s = Some s.
Proof.
  revert b. induction s as [|c r IH]; intros b; [reflexivity|].
  cbn. intros H. apply andb_prop in H as [Hc Hr].
  pose proof (isdigit_sign_or_digit _ Hc) as Hs.
  apply sign_or_digit_facts in Hs as (_ & _ & _ & -> & _).
  rewrite (IH _ Hr). reflexivity.
Qed.

Lemma int_digits_uint d :
  d <> Decimal.Nil ->
  Py.int_digits (NilEmpty.string_of_uint d) = Some (Z.of_uint d).
Proof.
  intros Hd. unfold Py.int_digits.
  destruct (NilEmpty.string_of_uint d) eqn:E.
  - destruct d; try discriminate E. congruence.
  - rewrite <- E, drop_underscores_digits by apply digits_of_uint.
    cbn. rewrite NilEmpty.usu. reflexivity.
Qed.

Lemma of_uint_pos p : Z.of_uint (Pos.to_uint p) = Z.pos p.
Proof. unfold Z.of_uint. now rewrite DecimalPos.Unsigned.of_to. Qed.

Lemma nilzero_nonnil d :
  d <> Decimal.Nil -> NilZero.string_of_uint d = NilEmpty.string_of_uint d.
Proof. destruct d; [intros H; now elim H|reflexivity..]. Qed.

(** [int] reads back what [str] writes. *)
Lemma int_str z : Py.int (Py.str z) = Some z.
Proof.
  unfold Py.int. rewrite strip_c_str.
  destruct z as [|p|p]; [reflexivity| |].
  - pose proof (DecimalPos.Unsigned.to_uint_nonnil p) as Hnn.
    destruct (str_head (Z.pos p)) as (c & r & E & Hc).
    rewrite E.
    destruct (sign_or_digit_facts _ Hc) as (_ & _ & _ & _ & Hplus).
    rewrite Hplus.
    assert (Hstr : Py.str (Z.pos p) = NilEmpty.string_of_uint (Pos.to_uint p))
      by (unfold Py.str; cbn; now apply nilzero_nonnil).
    assert (Hminus : Ascii.eqb c "-" = false).
    { rewrite Hstr in E. pose proof (digits_of_uint (Pos.to_uint p)) as Hd.
      rewrite E in Hd. cbn in Hd. apply andb_prop in Hd as [Hd _].
      destruct (Ascii.eqb_spec c "-"); [subst c; discriminate Hd|reflexivity]. }
    rewrite Hminus, <- E, Hstr, int_digits_uint by assumption.
    now rewrite of_uint_pos.
  - pose proof (DecimalPos.Unsigned.to_uint_nonnil p) as Hnn.
    assert (Hstr : Py.str (Z.neg p)
                   = String "-" (NilEmpty.string_of_uint (Pos.to_uint p)))
      by (unfold Py.str; cbn; now rewrite nilzero_nonnil).
    rewrite Hstr. cbn [Ascii.eqb Bool.eqb].
    change (Ascii.eqb "-" "+") with false. change (Ascii.eqb "-" "-") with true.
    cbn iota. rewrite int_digits_uint by assumption.
    now rewrite of_uint_pos.
Qed.

End Text.

(** ** The length table *)

Section Lengths.

Lemma fasta_chrlens_snoc l r :
  fasta_chrlens (l ++ [r]) = <[rec_id r := seq_len r]> (fasta_chrlens l).
Proof. unfold fasta_chrlens. now rewrite foldl_app. Qed.

(** Every entry of the table is the length of a record of the file. *)
Lemma fasta_chrlens_In fasta k n :
  fasta_chrlens fasta !! k = Some n ->
  exists r, In r fasta /\ rec_id r = k /\ n = seq_len r.
Proof.
  induction fasta as [|r l IH] using rev_ind.
  - unfold fasta_chrlens. cbn. rewrite lookup_empty. discriminate.
  - rewrite fasta_chrlens_snoc. intros H.
    destruct (decide (rec_id r = k)) as [E|NE].
    + rewrite <- E, lookup_insert_eq in H. injection H as <-.
      exists r. split; [apply in_or_app; right; now left|auto].
    + rewrite lookup_insert_ne in H by assumption.
      destruct (IH H) as (r' & Hin & Hid & Hn).
      exists r'. split; [apply in_or_app; now left|auto].
Qed.

End Lengths.

(** ** One turn of the loop *)

Section Step.

Variable cmap : CoordMapper.
Variable alt_chrlens : gmap string Z.
Variable oob_clip : bool.

Lemma parse_coordinate_inv raw a b rest :
  parse_coordinate raw = Some (a, b, rest) ->
  classify (stripped raw) = Coordinate /\
  exists c0 c1, Py.split Py.TAB (stripped raw) = c0 :: c1 :: rest
                /\ Py.int c0 = Some a /\ Py.int c1 = Some b.
Proof.
  unfold parse_coordinate.
  destruct (classify (stripped raw)); try discriminate.
  destruct (Py.split Py.TAB (stripped raw)) as [|c0 [|c1 rest']];
    try discriminate.
  destruct (Py.int c0) as [a'|] eqn:E0; [|discriminate].
  destruct (Py.int c1) as [b'|] eqn:E1; [|discriminate].
  cbn. intros [= -> -> ->]. eauto 6.
Qed.

(** A Coordinate line that parses goes through [map_endpoints] and
    [resolve]. *)
Lemma process_coordinate st raw a b rest sid :
  parse_coordinate raw = Some (a, b, rest) ->
  seqid st = Some sid ->
  process_line cmap alt_chrlens oob_clip st raw
  = resolve alt_chrlens oob_clip st
      (fst (map_endpoints cmap sid a b)) (snd (map_endpoints cmap sid a b))
      rest.
Proof.
  intros Hp Hs. apply parse_coordinate_inv in Hp as (Hc & c0 & c1 & Hsp & H0 & H1).
  unfold process_line. fold (stripped raw). rewrite Hc.
  unfold coordinate_line. rewrite Hsp, H0, H1, Hs.
  now destruct (map_endpoints cmap sid a b).
Qed.

Lemma process_qualifier st raw :
  is_qualifier raw = true ->
  process_line cmap alt_chrlens oob_clip st raw
  = qualifier_line st (stripped raw).
Proof.
  unfold is_qualifier, process_line. fold (stripped raw).
  now destruct (classify (stripped raw)).
Qed.

Lemma process_blank st raw :
  is_blank raw = true ->
  process_line cmap alt_chrlens oob_clip st raw = Next st (Some "").
Proof.
  unfold is_blank, process_line. fold (stripped raw). intros H.
  apply String.eqb_eq in H. rewrite H. reflexivity.
Qed.

(** Qualifier lines after a dropped Feature write nothing. *)
Lemma run_dropped_qualifiers st quals more :
  feature_keep st = Some false ->
  forallb is_qualifier quals = true ->
  run cmap alt_chrlens oob_clip st (quals ++ more)
  = run cmap alt_chrlens oob_clip st more.
Proof.
  intros Hk. induction quals as [|q qs IH]; [reflexivity|].
  cbn [forallb]. intros H. apply andb_prop in H as [Hq Hqs].
  cbn [app run]. rewrite (process_qualifier _ _ Hq).
  unfold qualifier_line. rewrite Hk, (IH Hqs).
  now destruct (run cmap alt_chrlens oob_clip st more).
Qed.

(** The loop over two pieces of a document. *)
Lemma run_app st l1 l2 :
  run cmap alt_chrlens oob_clip st (l1 ++ l2)
  = match run cmap alt_chrlens oob_clip st l1 with
    | (out1, Done st1) =>
        let '(out2, r) := run cmap alt_chrlens oob_clip st1 l2 in
        ((out1 ++ out2)%list, r)
    | (out1, Failed e) => (out1, Failed e)
    end.
Proof.
  revert st. induction l1 as [|raw l IH]; intros st.
  - cbn. now destruct (run cmap alt_chrlens oob_clip st l2).
  - cbn [app run].
    destruct (process_line cmap alt_chrlens oob_clip st raw) as [e|st' w];
      [reflexivity|].
    rewrite IH.
    destruct (run cmap alt_chrlens oob_clip st' l) as [out1 [st1|e]];
      [|now destruct w].
    destruct (run cmap alt_chrlens oob_clip st1 l2) as [out2 r].
    now destruct w.
Qed.

End Step.

(** ** The remapping policy *)

(** C5.  On a Coordinate line the strand is [end >= start]; on the forward
    strand the start goes through the mapper with bias -1 and the end with
    bias +1, on the reverse strand the start with bias +1 and the end with
    bias -1, and the line is settled from those two answers alone. *)
Theorem strand_biases (cmap : CoordMapper) (alt_chrlens : gmap string Z)
    (oob_clip : bool) (st : locals) (raw : string) (a b : Z)
    (rest : list string) (sid : string) :
  parse_coordinate raw = Some (a, b, rest) ->
  seqid st = Some sid ->
  (b >= a ->
   process_line cmap alt_chrlens oob_clip st raw
   = resolve alt_chrlens oob_clip st
       (of_mapped (mapAtoB_pos cmap sid a (-1)))
       (of_mapped (mapAtoB_pos cmap sid b 1)) rest)
  /\ (b < a ->
      process_line cmap alt_chrlens oob_clip st raw
      = resolve alt_chrlens oob_clip st
          (of_mapped (mapAtoB_pos cmap sid a 1))
          (of_mapped (mapAtoB_pos cmap sid b (-1))) rest).
Proof.
  intros Hp Hs. rewrite (process_coordinate _ _ _ _ _ _ _ _ _ Hp Hs).
  unfold map_endpoints. split; intros Hab.
  - destruct (Z.geb_spec b a); [reflexivity|lia].
  - destruct (Z.geb_spec b a); [lia|reflexivity].
Qed.

Lemma strand_biases_witness :
  process_line Sample.cmap (fasta_chrlens Sample.alt_fasta) true Sample.st1
    (Sample.T ["12"; "5"; "gene"])
  = resolve (fasta_chrlens Sample.alt_fasta) true Sample.st1
      (of_mapped (mapAtoB_pos Sample.cmap "KJ660346.2" 12 1))
      (of_mapped (mapAtoB_pos Sample.cmap "KJ660346.2" 5 (-1))) ["gene"].
Proof.
  apply (proj2 (strand_biases Sample.cmap (fasta_chrlens Sample.alt_fasta)
                  true Sample.st1 (Sample.T ["12"; "5"; "gene"]) 12 5
                  ["gene"] "KJ660346.2" eq_refl eq_refl)).
  lia.
Defined.

(** The column rule of the clip branch.  On a Coordinate line with exactly
    one endpoint unmapped: with clip mode off nothing is written for the
    Feature; with clip mode on the line is written, an unmapped first column
    as [<1], an unmapped second column as [>LEN], whatever the strand, where
    LEN is the entry of the length table of the alternate assembly for the
    mapped sequence id, the length of a record of that assembly; the retain
    flag is left as it was. *)
Theorem overhang_clip_or_drop (cmap : CoordMapper)
    (alt_fasta : list SeqRecord) (st : locals) (raw : string) (a b : Z)
    (rest : list string) (sid aid : string) :
  parse_coordinate raw = Some (a, b, rest) ->
  seqid st = Some sid ->
  altid st = Some aid ->
  (forall q, map_endpoints cmap sid a b = (VNone, VInt q) ->
     process_line cmap (fasta_chrlens alt_fasta) false st raw
     = Next (set_keep false st) None
     /\ process_line cmap (fasta_chrlens alt_fasta) true st raw
        = Next st (Some (Py.join tab ("<1" :: Py.str q :: rest))))
  /\ (forall p LEN, map_endpoints cmap sid a b = (VInt p, VNone) ->
       fasta_chrlens alt_fasta !! aid = Some LEN ->
       process_line cmap (fasta_chrlens alt_fasta) false st raw
       = Next (set_keep false st) None
       /\ process_line cmap (fasta_chrlens alt_fasta) true st raw
          = Next st
              (Some (Py.join tab (Py.str p :: (">" +:+ Py.str LEN) :: rest)))
       /\ exists r, In r alt_fasta /\ rec_id r = aid
                    /\ LEN = Z.of_nat (String.length (rec_seq r))).
Proof.
  intros Hp Hs Ha. split.
  - intros q Hm.
    rewrite !(process_coordinate _ _ _ _ _ _ _ _ _ Hp Hs), Hm.
    unfold resolve. cbn. split; reflexivity.
  - intros p LEN Hm Hlen.
    rewrite !(process_coordinate _ _ _ _ _ _ _ _ _ Hp Hs), Hm.
    unfold resolve. cbn. rewrite andb_false_r. cbn. rewrite Ha, Hlen.
    repeat split. now apply fasta_chrlens_In.
Qed.

Lemma overhang_clip_or_drop_witness :
  process_line Sample.cmap (fasta_chrlens Sample.alt_fasta) true Sample.st1
    (Sample.T ["15"; "25"; "CDS"])
  = Next Sample.st1 (Some (Sample.T ["10"; ">12"; "CDS"])).
Proof.
  apply (proj2 (overhang_clip_or_drop Sample.cmap Sample.alt_fasta
                  Sample.st1 (Sample.T ["15"; "25"; "CDS"]) 15 25 ["CDS"]
                  "KJ660346.2" "alt1" eq_refl eq_refl eq_refl)
           10 12 eq_refl eq_refl).
Defined.

(** C1.  The clip markers should follow the side of the sequence the
    Feature overhangs: [<1] on its left boundary, [>LEN] on its right one.
    The clip branch looks at the column only.  Here both Features are on
    the reverse strand.  The start 18 of the first lies past the end of the
    alternate sequence (length 12) and its end 4 maps to 2: the line is
    written as [<1 2], the marker of the left edge on the right boundary.
    The end 1 of the second lies before the first mapped position and its
    start 5 maps to 3: the line is written as [3 >12], the marker of the
    right edge on the left boundary.  The same two overhangs on the forward
    strand are written as [2 >12] and [<1 3]. *)
Theorem clip_marker_ignores_strand :
  (forward (Sample.T ["18"; "4"; "gene"]) = Some false
   /\ map_endpoints Sample.cmap "KJ660346.2" 18 4 = (VNone, VInt 2)
   /\ tbl_transfer Sample.cmap
        [ Sample.nl ">Feature gb|KJ660346.2|";
          Sample.nl (Sample.T ["18"; "4"; "gene"]) ]
        Sample.alt_fasta true
      = ([ Sample.nl ">Feature alt1";
           Sample.nl (Sample.T ["<1"; "2"; "gene"]) ], None))
  /\ (forward (Sample.T ["5"; "1"; "gene"]) = Some false
      /\ map_endpoints Sample.cmap "KJ660346.2" 5 1 = (VInt 3, VNone)
      /\ tbl_transfer Sample.cmap
           [ Sample.nl ">Feature gb|KJ660346.2|";
             Sample.nl (Sample.T ["5"; "1"; "gene"]) ]
           Sample.alt_fasta true
         = ([ Sample.nl ">Feature alt1";
              Sample.nl (Sample.T ["3"; ">12"; "gene"]) ], None))
  /\ tbl_transfer Sample.cmap
       [ Sample.nl ">Feature gb|KJ660346.2|";
         Sample.nl (Sample.T ["4"; "18"; "gene"]);
         Sample.nl (Sample.T ["1"; "5"; "gene"]) ]
       Sample.alt_fasta true
     = ([ Sample.nl ">Feature alt1";
          Sample.nl (Sample.T ["2"; ">12"; "gene"]);
          Sample.nl (Sample.T ["<1"; "3"; "gene"]) ], None).
Proof. repeat split. Qed.

(** C4.  A Feature both of whose endpoints are unmapped writes nothing:
    neither its Coordinate line nor any of the Qualifier lines that follow
    it, however many; the loop goes on as if it had only cleared the retain
    flag. *)
Theorem unmapped_feature_dropped (cmap : CoordMapper)
    (alt_chrlens : gmap string Z) (oob_clip : bool) (st : locals)
    (raw : string) (a b : Z) (rest : list string) (sid : string)
    (quals more : list string) :
  parse_coordinate raw = Some (a, b, rest) ->
  seqid st = Some sid ->
  map_endpoints cmap sid a b = (VNone, VNone) ->
  forallb is_qualifier quals = true ->
  run cmap alt_chrlens oob_clip st (raw :: quals)
  = ([], Done (set_keep false st))
  /\ run cmap alt_chrlens oob_clip st (raw :: quals ++ more)
     = run cmap alt_chrlens oob_clip (set_keep false st) more.
Proof.
  intros Hp Hs Hm Hq.
  assert (Hstep : process_line cmap alt_chrlens oob_clip st raw
                  = Next (set_keep false st) None).
  { rewrite (process_coordinate _ _ _ _ _ _ _ _ _ Hp Hs), Hm. reflexivity. }
  assert (Hgen : forall more',
             run cmap alt_chrlens oob_clip st (raw :: quals ++ more')
             = run cmap alt_chrlens oob_clip (set_keep false st) more').
  { intros more'. cbn [run]. rewrite Hstep.
    rewrite run_dropped_qualifiers by (assumption || reflexivity).
    now destruct (run cmap alt_chrlens oob_clip (set_keep false st) more'). }
  split; [|apply Hgen].
  specialize (Hgen []). rewrite app_nil_r in Hgen. exact Hgen.
Qed.

Lemma unmapped_feature_dropped_witness :
  run Sample.cmap (fasta_chrlens Sample.alt_fasta) true Sample.st1
    [Sample.nl (Sample.T ["30"; "40"; "gene"]);
     Sample.nl (Sample.T [""; ""; ""; "gene"; "far"]);
     Sample.nl (Sample.T [""; ""; ""; "note"; "lost"])]
  = ([], Done (set_keep false Sample.st1)).
Proof.
  apply (unmapped_feature_dropped Sample.cmap
           (fasta_chrlens Sample.alt_fasta) true Sample.st1
           (Sample.nl (Sample.T ["30"; "40"; "gene"])) 30 40 ["gene"]
           "KJ660346.2"
           [Sample.nl (Sample.T [""; ""; ""; "gene"; "far"]);
            Sample.nl (Sample.T [""; ""; ""; "note"; "lost"])] []);
    reflexivity.
Defined.

(** ** The retain flag *)

(** C2.  The retain flag after a Coordinate line should be the decision
    taken for that Feature.  The loop does not assign the flag when it clips
    a Feature: here the first Feature is dropped, the second is clipped and
    its Coordinate line written, and the Qualifier line of the second is not
    written; with no dropped Feature before it, the same Qualifier line is
    written. *)
Theorem clipped_feature_keeps_stale_flag :
  tbl_transfer Sample.cmap
    [ Sample.nl ">Feature gb|KJ660346.2|";
      Sample.nl (Sample.T ["30"; "40"; "gene"]);
      Sample.nl (Sample.T ["15"; "25"; "CDS"]);
      Sample.nl (Sample.T [""; ""; ""; "product"; "polymerase"]) ]
    Sample.alt_fasta true
  = ([ Sample.nl ">Feature alt1";
       Sample.nl (Sample.T ["10"; ">12"; "CDS"]) ], None)
  /\ tbl_transfer Sample.cmap
       [ Sample.nl ">Feature gb|KJ660346.2|";
         Sample.nl (Sample.T ["15"; "25"; "CDS"]);
         Sample.nl (Sample.T [""; ""; ""; "product"; "polymerase"]) ]
       Sample.alt_fasta true
     = ([ Sample.nl ">Feature alt1";
          Sample.nl (Sample.T ["10"; ">12"; "CDS"]);
          Sample.nl (Sample.T [""; ""; ""; "product"; "polymerase"]) ], None).
Proof. split; vm_compute; reflexivity. Qed.

(** ** Blank lines *)

Section Blank.

Variable cmap : CoordMapper.
Variable alt_chrlens : gmap string Z.
Variable oob_clip : bool.

Lemma append_tab_nonempty x y : String.eqb (x +:+ tab +:+ y) "" = false.
Proof. now destruct x. Qed.

Lemma classify_nonblank line :
  classify line <> Blank -> String.eqb line "" = false.
Proof.
  unfold classify. destruct (String.eqb line ""); [congruence|reflexivity].
Qed.

(** Only a blank line makes the loop write an empty line. *)
Lemma written_empty st raw st' w :
  process_line cmap alt_chrlens oob_clip st raw = Next st' (Some w) ->
  String.eqb w "" = is_blank raw.
Proof.
  unfold process_line, is_blank. fold (stripped raw).
  destruct (classify (stripped raw)) eqn:Ec.
  - intros [= <- <-]. reflexivity.
  - rewrite (classify_nonblank (stripped raw)) by congruence.
    unfold header_line.
    destruct (negb (Py.startswith ">Feature " (stripped raw))); [discriminate|].
    destruct (negb _); [discriminate|].
    destruct (mapAtoB_chrom cmap _); [|discriminate].
    intros [= <- <-]. reflexivity.
  - rewrite (classify_nonblank (stripped raw)) by congruence.
    unfold coordinate_line.
    destruct (Py.split Py.TAB (stripped raw)) as [|c0 [|c1 rest]];
      try discriminate.
    destruct (Py.int c0); [|discriminate].
    destruct (Py.int c1); [|discriminate].
    destruct (seqid st); [|discriminate].
    destruct (map_endpoints cmap _ _ _) as [r0 r1].
    unfold resolve, join_row.
    repeat match goal with
           | |- context [if ?c then _ else _] => destruct c
           | |- context [match ?o with Some _ => _ | None => _ end] =>
               destruct o
           end;
      try discriminate; intros [= <- <-];
      apply (append_tab_nonempty _ (Py.join tab (_ :: rest))).
  - rewrite (classify_nonblank (stripped raw)) by congruence.
    unfold qualifier_line.
    destruct (feature_keep st) as [[|]|]; try discriminate.
    destruct (Py.contains _ _); [discriminate|].
    intros [= <- <-]. now apply classify_nonblank; congruence.
Qed.

Lemma written_newline w :
  String.eqb (w +:+ newline) newline = String.eqb w "".
Proof.
  destruct w as [|c r]; [reflexivity|].
  change (String.eqb (String c r +:+ newline) newline)
    with (if Ascii.eqb c Py.LF then String.eqb (r +:+ newline) "" else false).
  destruct (Ascii.eqb c Py.LF); [|reflexivity]. now destruct r.
Qed.

End Blank.

(** C7 fails as stated: a document that is one blank line is written out as
    one empty line. *)
Lemma blank_line_is_written :
  is_blank newline = true
  /\ tbl_transfer Sample.cmap [newline] Sample.alt_fasta false
     = ([newline], None).
Proof. split; reflexivity. Qed.

(** C7, amended.  A blank line is written to the output as an empty line
    and leaves the locals as they are; when the loop reaches the end of the
    document, the output holds exactly as many empty lines as the document
    has blank lines. *)
Theorem blank_lines_pass_through (cmap : CoordMapper)
    (alt_chrlens : gmap string Z) (oob_clip : bool) (st st' : locals)
    (doc out : list string) :
  run cmap alt_chrlens oob_clip st doc = (out, Done st') ->
  (forall raw s, is_blank raw = true ->
     process_line cmap alt_chrlens oob_clip s raw = Next s (Some ""))
  /\ count (String.eqb newline) out = count is_blank doc.
Proof.
  intros Hrun. split; [intros raw s; apply process_blank|].
  revert st out Hrun. induction doc as [|raw doc IH]; intros st out.
  - cbn. intros [= <- _]. reflexivity.
  - cbn [run].
    destruct (process_line cmap alt_chrlens oob_clip st raw) as [e|s1 w] eqn:Ep;
      [discriminate|].
    destruct (run cmap alt_chrlens oob_clip s1 doc) as [out1 r1] eqn:Er.
    intros [= <- ->]. specialize (IH _ _ Er).
    unfold count in *. cbn [List.filter].
    destruct w as [w|].
    + cbn [List.filter]. rewrite String.eqb_sym, written_newline.
      rewrite (written_empty _ _ _ _ _ _ _ Ep).
      destruct (is_blank raw); cbn [List.length]; now rewrite IH.
    + assert (Hb : is_blank raw = false).
      { destruct (is_blank raw) eqn:Eb; [|reflexivity].
        rewrite (process_blank _ _ _ _ _ Eb) in Ep. discriminate. }
      rewrite Hb. exact IH.
Qed.

Lemma blank_lines_pass_through_witness :
  count (String.eqb newline)
    [Sample.nl ">Feature alt1"; newline; Sample.nl (Sample.T ["3"; "9"; "gene"]);
     newline]
  = count is_blank
      [Sample.nl ">Feature gb|KJ660346.2|"; newline;
       Sample.nl (Sample.T ["5"; "12"; "gene"]); String Py.CR newline].
Proof.
  apply (blank_lines_pass_through Sample.cmap (fasta_chrlens Sample.alt_fasta)
           false unbound Sample.st1
           [Sample.nl ">Feature gb|KJ660346.2|"; newline;
            Sample.nl (Sample.T ["5"; "12"; "gene"]); String Py.CR newline]).
  vm_compute. reflexivity.
Defined.

(** ** Failures *)

Section Failures.

Variable cmap : CoordMapper.
Variable alt_chrlens : gmap string Z.
Variable oob_clip : bool.

Local Abbreviation step_of := (process_line cmap alt_chrlens oob_clip).
Local Abbreviation run_of := (run cmap alt_chrlens oob_clip).

Local Ltac split_cases :=
  repeat match goal with
         | |- context [if ?c then _ else _] => destruct c eqn:?
         | |- context [match ?o with Some _ => _ | None => _ end] =>
             destruct o eqn:?
         | |- context [let '(_, _) := ?p in _] => destruct p eqn:?
         end.

Lemma resolve_bound st r0 r1 rest st' w :
  bound st = true ->
  resolve alt_chrlens oob_clip st r0 r1 rest = Next st' w ->
  bound st' = true /\ seqid st' = seqid st /\ altid st' = altid st.
Proof.
  intros Hb. unfold resolve. split_cases; try discriminate;
    intros [= <- <-]; repeat split; try assumption;
    unfold bound in *; cbn; destruct (seqid st), (altid st);
    try discriminate; reflexivity.
Qed.

Lemma resolve_not_unbound st r0 r1 rest e :
  bound st = true ->
  resolve alt_chrlens oob_clip st r0 r1 rest = Raise e ->
  is_unbound_read e = false.
Proof.
  unfold bound, resolve. intros Hb.
  split_cases; try discriminate; intros [= <-]; try reflexivity;
    exfalso; destruct (seqid st); discriminate.
Qed.

(** A Header line never reads a local, and assigns all three. *)
Lemma header_step st raw :
  classify (stripped raw) = Header ->
  match step_of st raw with
  | Raise e => is_unbound_read e = false
  | Next st' _ => bound st' = true
                  /\ exists sid, mapAtoB_chrom cmap sid = altid st'
  end.
Proof.
  intros Hc. unfold process_line. fold (stripped raw). rewrite Hc.
  unfold header_line. split_cases; try reflexivity.
  split; [reflexivity|]. cbn. eauto.
Qed.

(** Once the locals are assigned they stay assigned, and no turn of the loop
    fails on reading them. *)
Lemma bound_step st raw :
  bound st = true ->
  match step_of st raw with
  | Raise e => is_unbound_read e = false
  | Next st' _ => bound st' = true
  end.
Proof.
  intros Hb. unfold process_line. fold (stripped raw).
  destruct (classify (stripped raw)) eqn:Hc.
  - assumption.
  - pose proof (header_step st raw Hc) as H.
    unfold process_line in H. fold (stripped raw) in H. rewrite Hc in H.
    destruct (header_line cmap st (stripped raw)); tauto.
  - unfold coordinate_line.
    destruct (Py.split Py.TAB (stripped raw)) as [|c0 [|c1 rest]];
      try reflexivity.
    destruct (Py.int c0); [|reflexivity].
    destruct (Py.int c1); [|reflexivity].
    destruct (seqid st) eqn:Hs; [|unfold bound in Hb; now rewrite Hs in Hb].
    destruct (map_endpoints cmap _ _ _) as [r0 r1].
    destruct (resolve alt_chrlens oob_clip st r0 r1 rest) eqn:Hr.
    + eapply resolve_not_unbound; eassumption.
    + eapply resolve_bound; eassumption.
  - unfold qualifier_line.
    destruct (feature_keep st) as [[|]|] eqn:Hk.
    + now destruct (Py.contains _ _).
    + assumption.
    + unfold bound in Hb. rewrite Hk in Hb.
      destruct (seqid st), (altid st); discriminate.
Qed.

Lemma bound_run st doc out e :
  bound st = true -> run_of st doc = (out, Failed e) ->
  is_unbound_read e = false.
Proof.
  revert st out. induction doc as [|raw doc IH]; intros st out Hb.
  - discriminate.
  - cbn [run]. pose proof (bound_step st raw Hb) as H.
    destruct (step_of st raw) as [e'|st' w].
    + now intros [= _ <-].
    + destruct (run_of st' doc) as [out' r] eqn:Er.
      intros [= _ ->]. eapply IH; eassumption.
Qed.

Lemma header_first_run st doc out e :
  header_first doc = true -> run_of st doc = (out, Failed e) ->
  is_unbound_read e = false.
Proof.
  revert st out. induction doc as [|raw doc IH]; intros st out.
  - discriminate.
  - cbn [header_first run].
    destruct (classify (stripped raw)) eqn:Hc; try discriminate.
    + intros Hf. rewrite process_blank
        by (unfold is_blank; unfold classify in Hc;
            destruct (String.eqb (stripped raw) ""); [reflexivity|];
            revert Hc; split_cases; discriminate).
      destruct (run_of st doc) as [out' r] eqn:Er.
      intros [= _ ->]. eapply IH; eassumption.
    + intros _. pose proof (header_step st raw Hc) as H.
      destruct (step_of st raw) as [e'|st' w].
      * now intros [= _ <-].
      * destruct (run_of st' doc) as [out' r] eqn:Er.
        intros [= _ ->]. eapply bound_run; [apply H|eassumption].
Qed.

(** A malformed line raises, whatever the locals. *)
Lemma malformed_raises st raw :
  malformed raw = true -> exists e, step_of st raw = Raise e.
Proof.
  unfold malformed, process_line. fold (stripped raw).
  destruct (classify (stripped raw)); try discriminate.
  - unfold header_line, gb_wrapped, wrapped_accession.
    destruct (negb (Py.startswith ">Feature " (stripped raw))); [eauto|].
    cbn [orb]. intros ->. eauto.
  - unfold coordinate_line.
    destruct (Py.split Py.TAB (stripped raw)) as [|c0 [|c1 rest]]; eauto.
    destruct (Py.int c0); [|eauto].
    destruct (Py.int c1); [discriminate|eauto].
Qed.

(** The run stops at a malformed line: what it wrote is what it had written
    on the lines before. *)
Lemma malformed_run st pre raw post :
  malformed raw = true ->
  (exists e, snd (run_of st (pre ++ raw :: post)) = Failed e)
  /\ fst (run_of st (pre ++ raw :: post)) = fst (run_of st pre).
Proof.
  intros Hm. rewrite run_app.
  destruct (run_of st pre) as [out1 [st1|e]]; [|cbn; eauto].
  cbn [run]. destruct (malformed_raises st1 raw Hm) as [e ->].
  cbn. rewrite app_nil_r. eauto.
Qed.

Lemma header_covered st raw :
  classify (stripped raw) = Header -> malformed raw = false ->
  header_resolved cmap alt_chrlens raw = true ->
  exists st' w, step_of st raw = Next st' w /\ covered alt_chrlens st'.
Proof.
  intros Hc Hm Hr. unfold malformed in Hm. rewrite Hc in Hm.
  apply orb_false_elim in Hm as [H1 H2].
  unfold header_resolved, accession in Hr. rewrite Hc in Hr.
  unfold process_line. fold (stripped raw). rewrite Hc.
  unfold header_line. rewrite H1.
  unfold gb_wrapped in H2. unfold wrapped_accession in *. rewrite H2.
  destruct (mapAtoB_chrom cmap _) as [aid|]; [|discriminate].
  destruct (alt_chrlens !! aid) as [len|] eqn:Hl; [|discriminate].
  eexists _, _. split; [reflexivity|].
  split; [reflexivity|]. cbn. intros aid' [= <-]. rewrite Hl. eauto.
Qed.

Lemma covered_step st raw :
  covered alt_chrlens st -> malformed raw = false ->
  header_resolved cmap alt_chrlens raw = true ->
  exists st' w, step_of st raw = Next st' w /\ covered alt_chrlens st'.
Proof.
  intros [Hb Hlen] Hm Hr.
  destruct (classify (stripped raw)) eqn:Hc.
  - unfold process_line. fold (stripped raw). rewrite Hc.
    eexists _, _. split; [reflexivity|]. now split.
  - now apply header_covered.
  - unfold malformed in Hm. rewrite Hc in Hm.
    unfold process_line. fold (stripped raw). rewrite Hc.
    unfold coordinate_line.
    destruct (Py.split Py.TAB (stripped raw)) as [|c0 [|c1 rest]];
      try discriminate.
    destruct (Py.int c0); [|discriminate].
    destruct (Py.int c1); [|discriminate].
    unfold bound in Hb.
    destruct (seqid st) as [sid|] eqn:Hs; [|discriminate].
    destruct (altid st) as [aid|] eqn:Ha; [|discriminate].
    destruct (feature_keep st) as [k|] eqn:Hk; [|discriminate].
    destruct (Hlen aid eq_refl) as [len Hl].
    destruct (map_endpoints cmap sid _ _) as [r0 r1].
    assert (Hcov : forall b, covered alt_chrlens (set_keep b st)).
    { intros b. split; [unfold bound; cbn; now rewrite Hs, Ha|].
      cbn. rewrite Ha. exact Hlen. }
    assert (Hst : covered alt_chrlens st).
    { split; [unfold bound; now rewrite Hs, Ha, Hk|]. rewrite Ha. exact Hlen. }
    unfold resolve. rewrite Ha, Hl.
    split_cases; eexists _, _; (split; [reflexivity|]); auto.
  - unfold process_line. fold (stripped raw). rewrite Hc.
    unfold qualifier_line. unfold bound in Hb.
    destruct (feature_keep st) as [[|]|] eqn:Hk.
    + destruct (Py.contains _ _); eexists _, _;
        (split; [reflexivity|]); split; auto; unfold bound; now rewrite Hk.
    + eexists _, _; (split; [reflexivity|]); split; auto;
        unfold bound; now rewrite Hk.
    + destruct (seqid st), (altid st); discriminate.
Qed.

Lemma covered_run st doc :
  covered alt_chrlens st -> existsb malformed doc = false ->
  forallb (header_resolved cmap alt_chrlens) doc = true ->
  exists out st', run_of st doc = (out, Done st').
Proof.
  revert st. induction doc as [|raw doc IH]; intros st Hcov.
  - cbn. eauto.
  - cbn [existsb forallb run]. intros H Hres.
    apply orb_false_elim in H as [Hm Hd].
    apply andb_prop in Hres as [Hr Hrs].
    destruct (covered_step st raw Hcov Hm Hr) as (st' & w & -> & Hcov').
    destruct (IH st' Hcov' Hd Hrs) as (out & st2 & ->). eauto.
Qed.

Lemma header_first_ok st doc :
  header_first doc = true -> existsb malformed doc = false ->
  forallb (header_resolved cmap alt_chrlens) doc = true ->
  exists out st', run_of st doc = (out, Done st').
Proof.
  revert st. induction doc as [|raw doc IH]; intros st.
  - cbn. eauto.
  - cbn [header_first existsb forallb run]. intros Hf H Hres.
    apply orb_false_elim in H as [Hm Hd].
    apply andb_prop in Hres as [Hr Hrs].
    destruct (classify (stripped raw)) eqn:Hc; try discriminate.
    + unfold process_line. fold (stripped raw). rewrite Hc.
      destruct (IH st Hf Hd Hrs) as (out & st2 & ->). eauto.
    + destruct (header_covered st raw Hc Hm Hr) as (st' & w & -> & Hcov').
      destruct (covered_run st' doc Hcov' Hd Hrs) as (out & st2 & ->). eauto.
Qed.

End Failures.

Section Transfer.

Variable cmap : CoordMapper.
Variable alt_fasta : list SeqRecord.
Variable oob_clip : bool.

Lemma tbl_transfer_fst doc :
  fst (tbl_transfer cmap doc alt_fasta oob_clip)
  = fst (run cmap (fasta_chrlens alt_fasta) oob_clip unbound doc).
Proof.
  unfold tbl_transfer.
  now destruct (run cmap (fasta_chrlens alt_fasta) oob_clip unbound doc).
Qed.

Lemma tbl_transfer_snd doc :
  snd (tbl_transfer cmap doc alt_fasta oob_clip)
  = match snd (run cmap (fasta_chrlens alt_fasta) oob_clip unbound doc) with
    | Done _ => None
    | Failed e => Some e
    end.
Proof.
  unfold tbl_transfer.
  now destruct (run cmap (fasta_chrlens alt_fasta) oob_clip unbound doc).
Qed.

(** Blank lines at the head of a document are written and change nothing. *)
Lemma run_blanks alt_chrlens st blanks more :
  forallb is_blank blanks = true ->
  run cmap alt_chrlens oob_clip st (blanks ++ more)
  = let '(out, r) := run cmap alt_chrlens oob_clip st more in
    (List.map (fun _ => newline) blanks ++ out, r)%list.
Proof.
  induction blanks as [|raw l IH].
  - intros _. cbn. now destruct (run cmap alt_chrlens oob_clip st more).
  - cbn [forallb]. intros H. apply andb_prop in H as [Hb Hl].
    cbn [app run List.map]. rewrite (process_blank _ _ _ _ _ Hb), (IH Hl).
    now destruct (run cmap alt_chrlens oob_clip st more).
Qed.

End Transfer.

(** C10 fails as stated: the first line of this document is a Coordinate
    line, and the transfer fails on its single column, not on the read of a
    local. *)
Lemma first_line_one_column :
  classify (stripped (Sample.nl "gene")) = Coordinate
  /\ header_first [Sample.nl "gene"] = false
  /\ tbl_transfer Sample.cmap [Sample.nl "gene"] Sample.alt_fasta false
     = ([], Some OneColumn).
Proof. repeat split. Qed.

(** C10, amended.  When the first line that is not blank is a Coordinate
    line with two integer columns, the transfer fails on the read of the
    unassigned [seqid]; when it is a Qualifier line, on the read of the
    unassigned [feature_keep]; in both cases only the blank lines before it
    have been written.  When a Header line comes first, no read of a local
    ever fails. *)
Theorem header_precondition (cmap : CoordMapper) (alt_fasta : list SeqRecord)
    (oob_clip : bool) (blanks : list string) (raw : string)
    (more : list string) :
  forallb is_blank blanks = true ->
  (forall a b rest, parse_coordinate raw = Some (a, b, rest) ->
     tbl_transfer cmap (blanks ++ raw :: more) alt_fasta oob_clip
     = (List.map (fun _ => newline) blanks, Some (UnboundLocal "seqid")))
  /\ (is_qualifier raw = true ->
      tbl_transfer cmap (blanks ++ raw :: more) alt_fasta oob_clip
      = (List.map (fun _ => newline) blanks,
         Some (UnboundLocal "feature_keep")))
  /\ (forall doc e, header_first doc = true ->
        snd (tbl_transfer cmap doc alt_fasta oob_clip) = Some e ->
        is_unbound_read e = false).
Proof.
  intros Hb. repeat split.
  - intros a b rest Hp. unfold tbl_transfer.
    rewrite (run_blanks _ _ _ _ _ _ Hb). cbn [run].
    apply parse_coordinate_inv in Hp as (Hc & c0 & c1 & Hsp & H0 & H1).
    unfold process_line. fold (stripped raw). rewrite Hc.
    unfold coordinate_line. rewrite Hsp, H0, H1. cbn.
    now rewrite app_nil_r.
  - intros Hq. unfold tbl_transfer.
    rewrite (run_blanks _ _ _ _ _ _ Hb). cbn [run].
    rewrite (process_qualifier _ _ _ _ _ Hq). cbn.
    now rewrite app_nil_r.
  - intros doc e Hf. rewrite tbl_transfer_snd.
    destruct (run cmap (fasta_chrlens alt_fasta) oob_clip unbound doc)
      as [out [st|e']] eqn:Er; cbn; [discriminate|].
    intros [= <-]. eapply header_first_run; eassumption.
Qed.

Lemma header_precondition_witness :
  tbl_transfer Sample.cmap
    [newline; Sample.nl (Sample.T ["5"; "12"; "gene"]);
     Sample.nl (Sample.T [""; ""; ""; "gene"; "NP"])]
    Sample.alt_fasta false
  = ([newline], Some (UnboundLocal "seqid")).
Proof.
  apply (proj1 (header_precondition Sample.cmap Sample.alt_fasta false
                  [newline] (Sample.nl (Sample.T ["5"; "12"; "gene"]))
                  [Sample.nl (Sample.T [""; ""; ""; "gene"; "NP"])] eq_refl)
           5 12 ["gene"]).
  reflexivity.
Defined.

(** C8 fails as stated: neither document has a malformed line, and the
    transfer fails on both, on the read of an unassigned local in the first
    and on an accession the mapper does not know in the second. *)
Lemma failure_without_malformed_line :
  (existsb malformed [Sample.nl (Sample.T [""; ""; ""; "gene"; "NP"])] = false
   /\ tbl_transfer Sample.cmap
        [Sample.nl (Sample.T [""; ""; ""; "gene"; "NP"])] Sample.alt_fasta
        false
      = ([], Some (UnboundLocal "feature_keep")))
  /\ (existsb malformed [Sample.nl ">Feature gb|AF086833.2|"] = false
      /\ tbl_transfer Sample.cmap [Sample.nl ">Feature gb|AF086833.2|"]
           Sample.alt_fasta false
         = ([], Some (MapperError "AF086833.2"))).
Proof. repeat split. Qed.

(** C8, amended.  The transfer fails whenever it meets a malformed Header
    line or a malformed Coordinate line, and nothing is written from that
    line on.  When a Header line comes first and, for every Header line of
    the document, the mapper knows its accession and the length table has
    an entry for the id it is mapped to, the transfer fails only then: a
    document without a malformed line is transferred to its end, whatever
    endpoints are unmapped. *)
Theorem failure_causes (cmap : CoordMapper) (alt_fasta : list SeqRecord)
    (oob_clip : bool) (doc : list string) :
  (forall pre raw post, doc = (pre ++ raw :: post)%list ->
     malformed raw = true ->
     is_Some (snd (tbl_transfer cmap doc alt_fasta oob_clip))
     /\ fst (tbl_transfer cmap doc alt_fasta oob_clip)
        = fst (tbl_transfer cmap pre alt_fasta oob_clip))
  /\ (header_first doc = true ->
      forallb (header_resolved cmap (fasta_chrlens alt_fasta)) doc = true ->
      existsb malformed doc = false ->
      snd (tbl_transfer cmap doc alt_fasta oob_clip) = None).
Proof.
  split.
  - intros pre raw post -> Hm.
    rewrite tbl_transfer_snd, !tbl_transfer_fst.
    destruct (malformed_run cmap (fasta_chrlens alt_fasta) oob_clip unbound
                pre raw post Hm) as [[e He] Hout].
    rewrite He. split; [eauto|exact Hout].
  - intros Hf Hr Hm. rewrite tbl_transfer_snd.
    destruct (header_first_ok cmap (fasta_chrlens alt_fasta) oob_clip
                unbound doc Hf Hm Hr) as (out & st' & ->).
    reflexivity.
Qed.

Lemma failure_causes_witness :
  (is_Some (snd (tbl_transfer Sample.cmap
                   [Sample.nl ">Feature gb|KJ660346.2|";
                    Sample.nl (Sample.T ["5"; "twelve"; "gene"]);
                    Sample.nl (Sample.T [""; ""; ""; "gene"; "NP"])]
                   Sample.alt_fasta true))
   /\ fst (tbl_transfer Sample.cmap
             [Sample.nl ">Feature gb|KJ660346.2|";
              Sample.nl (Sample.T ["5"; "twelve"; "gene"]);
              Sample.nl (Sample.T [""; ""; ""; "gene"; "NP"])]
             Sample.alt_fasta true)
      = fst (tbl_transfer Sample.cmap [Sample.nl ">Feature gb|KJ660346.2|"]
               Sample.alt_fasta true))
  /\ snd (tbl_transfer Sample.cmap Sample.doc Sample.alt_fasta true) = None.
Proof.
  split.
  - apply (proj1 (failure_causes Sample.cmap Sample.alt_fasta true _)
             [Sample.nl ">Feature gb|KJ660346.2|"]
             (Sample.nl (Sample.T ["5"; "twelve"; "gene"]))
             [Sample.nl (Sample.T [""; ""; ""; "gene"; "NP"])]
             eq_refl eq_refl).
  - apply (proj2 (failure_causes Sample.cmap Sample.alt_fasta true
                    Sample.doc)); reflexivity.
Defined.

(** ** Qualifier lines *)

Section Qualifiers.

Variable cmap : CoordMapper.
Variable alt_chrlens : gmap string Z.
Variable oob_clip : bool.

Lemma startswith_cons a p b x :
  Py.startswith (String a p) (String b x)
  = if Ascii.eqb b a then Py.startswith p x else false.
Proof.
  unfold Py.startswith. cbn [String.prefix].
  destruct (ascii_dec a b) as [->|Hne].
  - now rewrite Ascii.eqb_refl.
  - destruct (Ascii.eqb_spec b a); [congruence|reflexivity].
Qed.

Lemma startswith_tab_str z x : Py.startswith tab (Py.str z +:+ x) = false.
Proof.
  destruct (str_head z) as (c & r & -> & Hc).
  apply sign_or_digit_facts in Hc as (Hc & _).
  change (String c r +:+ x) with (String c (r +:+ x)).
  unfold tab. now rewrite startswith_cons, Hc.
Qed.

Lemma startswith_tab_app w x :
  Py.startswith tab (w +:+ x) = true -> w <> "" ->
  Py.startswith tab w = true.
Proof.
  destruct w as [|c r]; [congruence|]. intros H _.
  change (String c r +:+ x) with (String c (r +:+ x)) in H.
  unfold tab in *. rewrite startswith_cons in *.
  destruct (Ascii.eqb c Py.TAB); [|discriminate]. now destruct r.
Qed.

(** A written line that starts with a tab is a Qualifier line of the input,
    as it was, without [protein_id], read under a retain flag that is set. *)
Lemma written_tab st raw st' w :
  process_line cmap alt_chrlens oob_clip st raw = Next st' (Some w) ->
  Py.startswith tab w = true ->
  is_qualifier raw = true /\ w = stripped raw
  /\ feature_keep st = Some true
  /\ Py.contains "protein_id" w = false.
Proof.
  unfold process_line, is_qualifier. fold (stripped raw).
  destruct (classify (stripped raw)) eqn:Ec.
  - intros [= <- <-]. unfold classify in Ec.
    destruct (String.eqb_spec (stripped raw) "") as [->|]; [discriminate|].
    destruct (Py.startswith ">" (stripped raw)); [discriminate|].
    destruct (negb (Py.startswith tab (stripped raw))); discriminate.
  - unfold header_line.
    destruct (negb (Py.startswith ">Feature " (stripped raw))); [discriminate|].
    destruct (negb _); [discriminate|].
    destruct (mapAtoB_chrom cmap _); [|discriminate].
    intros [= <- <-]. discriminate.
  - unfold coordinate_line.
    destruct (Py.split Py.TAB (stripped raw)) as [|c0 [|c1 rest]];
      try discriminate.
    destruct (Py.int c0) as [a|]; [|discriminate].
    destruct (Py.int c1) as [b|]; [|discriminate].
    destruct (seqid st) as [sid|]; [|discriminate].
    assert (Hm : exists o0 o1,
               map_endpoints cmap sid a b = (of_mapped o0, of_mapped o1)).
    { unfold map_endpoints. destruct (b >=? a); eauto. }
    destruct Hm as (o0 & o1 & ->).
    destruct o0 as [p|], o1 as [q|]; cbn [of_mapped];
      unfold resolve, join_row; cbn [truth is_none andb negb];
      repeat (match goal with
              | |- context [if ?c then _ else _] =>
                  lazymatch c with
                  | true => fail
                  | false => fail
                  | _ => destruct c
                  end
              | |- context [match ?o with Some _ => _ | None => _ end] =>
                  destruct o
              end; cbn [andb negb]);
      try discriminate; intros [= <- <-] H; exfalso;
      cbn [str_value] in H;
      first [ now rewrite (startswith_tab_str _ (tab +:+ _)) in H
            | discriminate H ].
  - unfold qualifier_line.
    destruct (feature_keep st) as [[|]|]; try discriminate.
    destruct (Py.contains _ _) eqn:Ep; [discriminate|].
    intros [= <- <-]. auto.
Qed.

Lemma run_written st doc c :
  In c (fst (run cmap alt_chrlens oob_clip st doc)) ->
  exists raw st0 st1 w,
    In raw doc
    /\ process_line cmap alt_chrlens oob_clip st0 raw = Next st1 (Some w)
    /\ c = w +:+ newline.
Proof.
  revert st. induction doc as [|raw doc IH]; intros st; [intros []|].
  cbn [run].
  destruct (process_line cmap alt_chrlens oob_clip st raw) as [e|st' w] eqn:Ep;
    [intros []|].
  destruct (run cmap alt_chrlens oob_clip st' doc) as [out r] eqn:Er.
  assert (Htail : In c out ->
                  exists raw0 st0 st1 w0,
                    In raw0 (raw :: doc)
                    /\ process_line cmap alt_chrlens oob_clip st0 raw0
                       = Next st1 (Some w0)
                    /\ c = w0 +:+ newline).
  { intros Hin. specialize (IH st'). rewrite Er in IH.
    destruct (IH Hin) as (raw0 & st0 & st1 & w0 & H1 & H2 & H3).
    exists raw0, st0, st1, w0. split; [now right|auto]. }
  destruct w as [w|]; cbn [fst]; [|exact Htail].
  intros [<-|Hin]; [|auto].
  exists raw, st, st', w. split; [now left|auto].
Qed.

End Qualifiers.

(** The Qualifier rule on the retain flag.  No Qualifier line that holds
    [protein_id] reaches the output, whether the retain flag is set or
    cleared: every written line that starts with a tab is a Qualifier line
    of the input, unchanged and without [protein_id].  Any other Qualifier
    line read while the retain flag is set is written unchanged. *)
Theorem qualifier_filter (cmap : CoordMapper) (alt_fasta : list SeqRecord)
    (oob_clip : bool) (doc : list string) :
  (forall c, In c (fst (tbl_transfer cmap doc alt_fasta oob_clip)) ->
     Py.startswith tab c = true ->
     exists raw, In raw doc /\ is_qualifier raw = true
                 /\ c = stripped raw +:+ newline
                 /\ Py.contains "protein_id" (stripped raw) = false)
  /\ (forall alt_chrlens st raw k,
        is_qualifier raw = true ->
        Py.contains "protein_id" (stripped raw) = true ->
        feature_keep st = Some k ->
        process_line cmap alt_chrlens oob_clip st raw = Next st None)
  /\ (forall alt_chrlens st raw,
        is_qualifier raw = true ->
        Py.contains "protein_id" (stripped raw) = false ->
        feature_keep st = Some true ->
        process_line cmap alt_chrlens oob_clip st raw
        = Next st (Some (stripped raw))).
Proof.
  repeat split.
  - intros c Hin Htab. rewrite tbl_transfer_fst in Hin.
    apply run_written in Hin as (raw & st0 & st1 & w & Hraw & Hstep & ->).
    assert (Hw : w <> "").
    { intros ->. discriminate Htab. }
    apply startswith_tab_app in Htab; [|exact Hw].
    destruct (written_tab _ _ _ _ _ _ _ Hstep Htab) as (Hq & -> & _ & Hp).
    exists raw. auto.
  - intros alt_chrlens st raw k Hq Hp Hk.
    rewrite (process_qualifier _ _ _ _ _ Hq). unfold qualifier_line.
    rewrite Hk, Hp. now destruct k.
  - intros alt_chrlens st raw Hq Hp Hk.
    rewrite (process_qualifier _ _ _ _ _ Hq). unfold qualifier_line.
    now rewrite Hk, Hp.
Qed.

Lemma qualifier_filter_witness :
  process_line Sample.cmap (fasta_chrlens Sample.alt_fasta) false Sample.st1
    (Sample.nl (Sample.T [""; ""; ""; "protein_id"; "AAA1"]))
  = Next Sample.st1 None
  /\ process_line Sample.cmap (fasta_chrlens Sample.alt_fasta) false
       Sample.st1 (Sample.nl (Sample.T [""; ""; ""; "gene"; "NP"]))
     = Next Sample.st1 (Some (Sample.T [""; ""; ""; "gene"; "NP"])).
Proof.
  split.
  - apply (proj1 (proj2 (qualifier_filter Sample.cmap Sample.alt_fasta false
                           []))
             (fasta_chrlens Sample.alt_fasta) Sample.st1
             (Sample.nl (Sample.T [""; ""; ""; "protein_id"; "AAA1"])) true
             eq_refl eq_refl eq_refl).
  - apply (proj2 (proj2 (qualifier_filter Sample.cmap Sample.alt_fasta false
                           []))
             (fasta_chrlens Sample.alt_fasta) Sample.st1
             (Sample.nl (Sample.T [""; ""; ""; "gene"; "NP"]))
             eq_refl eq_refl eq_refl).
Defined.

(** C6.  A Qualifier line without [protein_id] of a retained Feature
    should be written unchanged.  Here the first Feature is dropped and the
    second is clipped: its Coordinate line is written, so the Feature is
    retained, yet neither of its two Qualifier lines is written, because
    the clip branch leaves the retain flag as the dropped Feature set it.
    The [protein_id] line of the third Feature is left out and its other
    Qualifier line is written, as they should. *)
Theorem clipped_feature_loses_qualifiers :
  tbl_transfer Sample.cmap
    [ Sample.nl ">Feature gb|KJ660346.2|";
      Sample.nl (Sample.T ["30"; "40"; "gene"]);
      Sample.nl (Sample.T ["15"; "25"; "CDS"]);
      Sample.nl (Sample.T [""; ""; ""; "product"; "polymerase"]);
      Sample.nl (Sample.T [""; ""; ""; "note"; "partial"]);
      Sample.nl (Sample.T ["5"; "12"; "gene"]);
      Sample.nl (Sample.T [""; ""; ""; "protein_id"; "AAA1"]);
      Sample.nl (Sample.T [""; ""; ""; "gene"; "NP"]) ]
    Sample.alt_fasta true
  = ([ Sample.nl ">Feature alt1";
       Sample.nl (Sample.T ["10"; ">12"; "CDS"]);
       Sample.nl (Sample.T ["3"; "9"; "gene"]);
       Sample.nl (Sample.T [""; ""; ""; "gene"; "NP"]) ], None).
Proof. reflexivity. Qed.

(** ** Mapped Features *)

Section Mapped.

Lemma append_assoc_s (x y z : string) : (x +:+ y) +:+ z = x +:+ y +:+ z.
Proof.
  induction x as [|c r IH]; [reflexivity|].
  change (String c ((r +:+ y) +:+ z) = String c (r +:+ y +:+ z)).
  now rewrite IH.
Qed.

Lemma append_inv_head (x y z : string) : x +:+ y = x +:+ z -> y = z.
Proof.
  induction x as [|c r IH]; [auto|].
  change (String c (r +:+ y) = String c (r +:+ z) -> y = z).
  intros [= H]. auto.
Qed.

Lemma rstrip_head chars c r :
  chars c = false -> Py.rstrip chars (String c r) <> "".
Proof. intros H. cbn. destruct (Py.rstrip chars r); now rewrite ?H. Qed.

Lemma rstrip_app_keep chars u v :
  Py.rstrip chars v <> "" ->
  Py.rstrip chars (u +:+ v) = u +:+ Py.rstrip chars v.
Proof.
  intros Hv. induction u as [|c r IH]; [reflexivity|].
  change (String c r +:+ v) with (String c (r +:+ v)).
  change (String c r +:+ Py.rstrip chars v)
    with (String c (r +:+ Py.rstrip chars v)).
  cbn [Py.rstrip]. rewrite IH.
  destruct (r +:+ Py.rstrip chars v) eqn:E; [|reflexivity].
  destruct r; [now elim Hv|discriminate E].
Qed.

Lemma rstrip_idem chars s :
  Py.rstrip chars (Py.rstrip chars s) = Py.rstrip chars s.
Proof.
  induction s as [|c r IH]; [reflexivity|].
  cbn [Py.rstrip]. destruct (Py.rstrip chars r) as [|d r'] eqn:E.
  - destruct (chars c) eqn:Ec; [reflexivity|]. cbn. now rewrite Ec.
  - cbn [Py.rstrip] in IH |- *. now rewrite IH.
Qed.

(** What follows a cell that does not end the line stays when the cells
    before it are replaced. *)
Lemma rstrip_swap_prefix chars u u' c r :
  chars c = false ->
  Py.rstrip chars (u +:+ String c r) = u +:+ String c r ->
  Py.rstrip chars (u' +:+ String c r) = u' +:+ String c r.
Proof.
  intros Hc H. pose proof (rstrip_head chars c r Hc) as Hne.
  rewrite rstrip_app_keep in H by assumption.
  apply append_inv_head in H.
  rewrite rstrip_app_keep by assumption. now rewrite H.
Qed.

Lemma sign_or_digit_not_crlf c : sign_or_digit c = true -> Py.is_crlf c = false.
Proof.
  destruct c as [[|] [|] [|] [|] [|] [|] [|] [|]]; vm_compute;
    intros H; try discriminate H; reflexivity.
Qed.

Lemma stripped_str z : stripped (Py.str z) = Py.str z.
Proof.
  apply rstrip_id. apply (all_chars_impl sign_or_digit); [|apply str_chars].
  intros c Hc. now rewrite (sign_or_digit_not_crlf _ Hc).
Qed.

Lemma classify_str z x : classify (Py.str z +:+ x) = Coordinate.
Proof.
  unfold classify. rewrite startswith_tab_str.
  destruct (str_head z) as (c & r & -> & Hc).
  apply sign_or_digit_facts in Hc as (_ & Hgt & _).
  change (String c r +:+ x) with (String c (r +:+ x)).
  rewrite startswith_cons, Hgt. reflexivity.
Qed.

(** A rewritten Coordinate line has no line terminator to strip. *)
Lemma stripped_rewritten raw c0 c1 rest p q :
  Py.split Py.TAB (stripped raw) = c0 :: c1 :: rest ->
  stripped (Py.join tab (Py.str p :: Py.str q :: rest))
  = Py.join tab (Py.str p :: Py.str q :: rest).
Proof.
  intros Hsp. pose proof (join_split (stripped raw)) as Hj.
  rewrite Hsp in Hj. destruct rest as [|r1 rs].
  - cbn [Py.join]. unfold stripped.
    rewrite <- append_assoc_s, rstrip_app_keep; fold (stripped (Py.str q));
      rewrite stripped_str; [reflexivity|].
    destruct (str_head q) as (c & r & -> & _). discriminate.
  - rewrite !join_cons2 in Hj |- *.
    assert (Hraw : stripped (stripped raw) = stripped raw)
      by apply rstrip_idem.
    rewrite <- Hj in Hraw. unfold stripped in *.
    assert (Hassoc : forall x y,
               x +:+ tab +:+ y +:+ tab +:+ Py.join tab (r1 :: rs)
               = (x +:+ tab +:+ y) +:+ String Py.TAB (Py.join tab (r1 :: rs))).
    { intros x y. now rewrite !append_assoc_s. }
    rewrite Hassoc in Hraw |- *.
    eapply rstrip_swap_prefix; [reflexivity|exact Hraw].
Qed.

End Mapped.

(** C3 fails as stated.  Both endpoints of [5 12] are mapped by both
    mappers.  The first maps the start to 0, and with clip mode off the
    Feature is dropped: only the Header line is written.  The second maps
    the endpoints to 95 and 88: the line is written with the strand
    reversed. *)
Lemma mapped_feature_dropped_or_reversed :
  (map_endpoints Sample.shift5 "KJ660346.2" 5 12 = (VInt 0, VInt 7)
   /\ tbl_transfer Sample.shift5
        [Sample.nl ">Feature gb|KJ660346.2|";
         Sample.nl (Sample.T ["5"; "12"; "gene"])] Sample.alt_fasta false
      = ([Sample.nl ">Feature alt1"], None))
  /\ (map_endpoints Sample.mirror "KJ660346.2" 5 12 = (VInt 95, VInt 88)
      /\ tbl_transfer Sample.mirror
           [Sample.nl ">Feature gb|KJ660346.2|";
            Sample.nl (Sample.T ["5"; "12"; "gene"])] Sample.alt_fasta false
         = ([Sample.nl ">Feature alt1";
             Sample.nl (Sample.T ["95"; "88"; "gene"])], None)
      /\ forward (Sample.T ["5"; "12"; "gene"]) = Some true
      /\ forward (Sample.T ["95"; "88"; "gene"]) = Some false).
Proof. repeat split. Qed.

(** C3, amended.  For every Feature both of whose endpoints the mapper maps
    to positions other than 0, the Feature is retained: the retain flag is
    set and the Coordinate line is written with its first two columns the
    mapped endpoints as plain integers and every other column unchanged.
    The written line reads back as a Coordinate line with those endpoints,
    so its strand is that of the mapped endpoints: it is the strand of the
    input exactly when the mapper keeps the order of the two endpoints. *)
Theorem mapped_feature_rewritten (cmap : CoordMapper)
    (alt_chrlens : gmap string Z) (oob_clip : bool) (st : locals)
    (raw : string) (a b : Z) (rest : list string) (sid : string) (p q : Z) :
  parse_coordinate raw = Some (a, b, rest) ->
  seqid st = Some sid ->
  map_endpoints cmap sid a b = (VInt p, VInt q) ->
  p <> 0 -> q <> 0 ->
  process_line cmap alt_chrlens oob_clip st raw
  = Next (set_keep true st)
      (Some (Py.join tab (Py.str p :: Py.str q :: rest)))
  /\ Py.split Py.TAB (Py.join tab (Py.str p :: Py.str q :: rest))
     = Py.str p :: Py.str q :: rest
  /\ parse_coordinate (Py.join tab (Py.str p :: Py.str q :: rest))
     = Some (p, q, rest)
  /\ (forward (Py.join tab (Py.str p :: Py.str q :: rest)) = forward raw
      <-> (q >=? p) = (b >=? a)).
Proof.
  intros Hp Hs Hm Hp0 Hq0.
  pose proof (parse_coordinate_inv _ _ _ _ Hp) as (Hc & c0 & c1 & Hsp & H0 & H1).
  assert (Hsplit : Py.split Py.TAB (Py.join tab (Py.str p :: Py.str q :: rest))
                   = Py.str p :: Py.str q :: rest).
  { apply split_join; [discriminate|].
    pose proof (split_no_tab (stripped raw)) as Hnt. rewrite Hsp in Hnt.
    inversion Hnt as [|? ? _ Hnt']; subst. inversion Hnt' as [|? ? _ Hr]; subst.
    repeat constructor; auto using str_no_tab. }
  assert (Hback : parse_coordinate (Py.join tab (Py.str p :: Py.str q :: rest))
                  = Some (p, q, rest)).
  { unfold parse_coordinate.
    rewrite (stripped_rewritten raw c0 c1 rest p q Hsp), Hsplit.
    rewrite join_cons2, classify_str, !int_str. reflexivity. }
  repeat split; auto.
  - rewrite (process_coordinate _ _ _ _ _ _ _ _ _ Hp Hs), Hm.
    unfold resolve. cbn [fst snd truth].
    destruct (Z.eqb_spec p 0); [contradiction|].
    destruct (Z.eqb_spec q 0); [contradiction|]. reflexivity.
  - unfold forward. rewrite Hback, Hp. now intros [= ->].
  - unfold forward. rewrite Hback, Hp. now intros ->.
Qed.

Lemma mapped_feature_rewritten_witness :
  process_line Sample.cmap (fasta_chrlens Sample.alt_fasta) false
    (set_keep false Sample.st1) (Sample.nl (Sample.T ["12"; "5"; "gene"; "x"]))
  = Next Sample.st1 (Some (Sample.T ["9"; "3"; "gene"; "x"])).
Proof.
  apply (mapped_feature_rewritten Sample.cmap (fasta_chrlens Sample.alt_fasta)
           false (set_keep false Sample.st1)
           (Sample.nl (Sample.T ["12"; "5"; "gene"; "x"])) 12 5
           ["gene"; "x"] "KJ660346.2" 9 3 eq_refl eq_refl eq_refl);
    lia.
Defined.

(** ** Transfer onto the same assembly *)

Section Identity.

Variable alt_chrlens : gmap string Z.
Variable oob_clip : bool.

Local Abbreviation step_id := (process_line identity_cmap alt_chrlens oob_clip).
Local Abbreviation run_id := (run identity_cmap alt_chrlens oob_clip).

Lemma verbatim_inv raw :
  verbatim raw = true ->
  raw = stripped raw +:+ newline
  /\ match classify (stripped raw) with
     | Blank => True
     | Header => malformed raw = false
     | Coordinate =>
         exists a b rest,
           Py.split Py.TAB (stripped raw) = Py.str a :: Py.str b :: rest
           /\ parse_coordinate raw = Some (a, b, rest)
           /\ a <> 0 /\ b <> 0
     | Qualifier => Py.contains "protein_id" (stripped raw) = false
     end.
Proof.
  unfold verbatim. intros H. apply andb_prop in H as [Hraw H].
  apply String.eqb_eq in Hraw. split; [exact Hraw|].
  unfold parse_coordinate.
  destruct (classify (stripped raw)); [exact I| | |].
  - now apply negb_true_iff in H.
  - destruct (Py.split Py.TAB (stripped raw)) as [|c0 [|c1 rest]];
      try discriminate.
    destruct (Py.int c0) as [a|]; [|discriminate].
    destruct (Py.int c1) as [b|]; [|discriminate].
    apply andb_prop in H as [H Hb]. apply andb_prop in H as [H Ha].
    apply andb_prop in H as [H0 H1].
    apply String.eqb_eq in H0, H1. subst c0 c1.
    apply negb_true_iff in Ha, Hb. apply Z.eqb_neq in Ha, Hb.
    exists a, b, rest. auto.
  - now apply negb_true_iff in H.
Qed.

Lemma verbatim_header st raw :
  classify (stripped raw) = Header -> verbatim raw = true ->
  exists st' w, step_id st raw = Next st' (Some w)
                /\ w +:+ newline = unwrapped raw /\ retaining st'.
Proof.
  intros Hc Hv. apply verbatim_inv in Hv as [_ Hm]. rewrite Hc in Hm.
  unfold malformed in Hm. rewrite Hc in Hm.
  apply orb_false_elim in Hm as [H1 H2].
  unfold process_line, unwrapped. fold (stripped raw). rewrite Hc.
  unfold header_line. rewrite H1.
  unfold gb_wrapped in H2. unfold wrapped_accession in *. rewrite H2.
  cbn [identity_cmap mapAtoB_chrom]. eexists _, _.
  split; [reflexivity|]. split; [reflexivity|].
  split; [cbn; eauto|reflexivity].
Qed.

Lemma verbatim_step st raw :
  retaining st -> verbatim raw = true ->
  exists st' w, step_id st raw = Next st' (Some w)
                /\ w +:+ newline = unwrapped raw /\ retaining st'.
Proof.
  intros [[sid Hs] Hk] Hv.
  destruct (classify (stripped raw)) eqn:Hc.
  - apply verbatim_inv in Hv as [Hraw _].
    unfold process_line, unwrapped. fold (stripped raw). rewrite Hc.
    exists st, (stripped raw). rewrite <- Hraw.
    repeat split; eauto.
  - now apply verbatim_header.
  - apply verbatim_inv in Hv as [Hraw Hv]. rewrite Hc in Hv.
    destruct Hv as (a & b & rest & Hsp & Hp & Ha & Hb).
    rewrite (process_coordinate _ _ _ _ _ _ _ _ _ Hp Hs).
    assert (Hm : map_endpoints identity_cmap sid a b = (VInt a, VInt b))
      by (unfold map_endpoints; now destruct (b >=? a)).
    rewrite Hm. unfold resolve. cbn [fst snd truth].
    destruct (Z.eqb_spec a 0); [contradiction|].
    destruct (Z.eqb_spec b 0); [contradiction|].
    cbn [negb andb]. eexists _, _. split; [reflexivity|].
    unfold join_row, unwrapped. cbn [str_value].
    rewrite Hc, <- Hsp, join_split, <- Hraw.
    repeat split; cbn; eauto.
  - apply verbatim_inv in Hv as [Hraw Hv]. rewrite Hc in Hv.
    unfold process_line, unwrapped. fold (stripped raw). rewrite Hc.
    unfold qualifier_line. rewrite Hk, Hv.
    exists st, (stripped raw). rewrite <- Hraw. repeat split; eauto.
Qed.

Lemma verbatim_run st doc :
  retaining st -> forallb verbatim doc = true ->
  exists st', run_id st doc = (List.map unwrapped doc, Done st').
Proof.
  revert st. induction doc as [|raw doc IH]; intros st Hr.
  - cbn. eauto.
  - cbn [forallb run List.map]. intros H. apply andb_prop in H as [Hv Hd].
    destruct (verbatim_step st raw Hr Hv) as (st1 & w & -> & <- & Hr1).
    destruct (IH st1 Hr1 Hd) as (st2 & ->). eauto.
Qed.

Lemma verbatim_header_first st doc :
  header_first doc = true -> forallb verbatim doc = true ->
  exists st', run_id st doc = (List.map unwrapped doc, Done st').
Proof.
  revert st. induction doc as [|raw doc IH]; intros st.
  - cbn. eauto.
  - cbn [header_first forallb run List.map]. intros Hf H.
    apply andb_prop in H as [Hv Hd].
    destruct (classify (stripped raw)) eqn:Hc; try discriminate.
    + pose proof (verbatim_inv raw Hv) as [Hraw _].
      unfold process_line, unwrapped. fold (stripped raw). rewrite Hc.
      destruct (IH st Hf Hd) as (st2 & ->). rewrite <- Hraw. eauto.
    + destruct (verbatim_header st raw Hc Hv) as (st1 & w & -> & <- & Hr1).
      destruct (verbatim_run st1 doc Hr1 Hd) as (st2 & ->). eauto.
Qed.

End Identity.

(** C9 fails as stated.  Both documents are well formed and are transferred
    with the identity mapper.  The Qualifier line of the first holds
    [protein_id] and is not written; the start of the second is written
    without its leading zero. *)
Lemma identity_transfer_changes_document :
  (header_first
     [Sample.nl ">Feature gb|KJ660346.2|";
      Sample.nl (Sample.T ["5"; "12"; "CDS"]);
      Sample.nl (Sample.T [""; ""; ""; "protein_id"; "AAA1"])] = true
   /\ existsb malformed
        [Sample.nl ">Feature gb|KJ660346.2|";
         Sample.nl (Sample.T ["5"; "12"; "CDS"]);
         Sample.nl (Sample.T [""; ""; ""; "protein_id"; "AAA1"])] = false
   /\ tbl_transfer identity_cmap
        [Sample.nl ">Feature gb|KJ660346.2|";
         Sample.nl (Sample.T ["5"; "12"; "CDS"]);
         Sample.nl (Sample.T [""; ""; ""; "protein_id"; "AAA1"])]
        Sample.alt_fasta false
      = ([Sample.nl ">Feature KJ660346.2";
          Sample.nl (Sample.T ["5"; "12"; "CDS"])], None)
   /\ List.map unwrapped
        [Sample.nl ">Feature gb|KJ660346.2|";
         Sample.nl (Sample.T ["5"; "12"; "CDS"]);
         Sample.nl (Sample.T [""; ""; ""; "protein_id"; "AAA1"])]
      = [Sample.nl ">Feature KJ660346.2";
         Sample.nl (Sample.T ["5"; "12"; "CDS"]);
         Sample.nl (Sample.T [""; ""; ""; "protein_id"; "AAA1"])])
  /\ (existsb malformed
        [Sample.nl ">Feature gb|KJ660346.2|";
         Sample.nl (Sample.T ["05"; "12"; "CDS"])] = false
      /\ tbl_transfer identity_cmap
           [Sample.nl ">Feature gb|KJ660346.2|";
            Sample.nl (Sample.T ["05"; "12"; "CDS"])]
           Sample.alt_fasta false
         = ([Sample.nl ">Feature KJ660346.2";
             Sample.nl (Sample.T ["5"; "12"; "CDS"])], None)).
Proof. repeat split. Qed.

(** C9, amended.  With the identity mapper, a document in which a Header
    line comes first and every line ends in one line feed and is blank, a
    well-formed Header line, a Coordinate line whose two endpoints are
    non-zero integers in the form [str] writes them, or a Qualifier line
    without [protein_id], is written out line for line as it is, except
    that each Header line loses its [gb|...|] wrapper. *)
Theorem identity_round_trip (alt_fasta : list SeqRecord) (oob_clip : bool)
    (doc : list string) :
  header_first doc = true ->
  forallb verbatim doc = true ->
  tbl_transfer identity_cmap doc alt_fasta oob_clip
  = (List.map unwrapped doc, None).
Proof.
  intros Hf Hv. unfold tbl_transfer.
  destruct (verbatim_header_first (fasta_chrlens alt_fasta) oob_clip unbound
              doc Hf Hv) as (st' & ->).
  reflexivity.
Qed.

Lemma identity_round_trip_witness :
  tbl_transfer identity_cmap
    [ newline;
      Sample.nl ">Feature gb|KJ660346.2|";
      Sample.nl (Sample.T ["12"; "5"; "CDS"; ""; ""]);
      Sample.nl (Sample.T [""; ""; ""; "product"; "polymerase"]);
      newline;
      Sample.nl (Sample.T ["-3"; "40"; "gene"]) ]
    Sample.alt_fasta true
  = ([ newline;
       Sample.nl ">Feature KJ660346.2";
       Sample.nl (Sample.T ["12"; "5"; "CDS"; ""; ""]);
       Sample.nl (Sample.T [""; ""; ""; "product"; "polymerase"]);
       newline;
       Sample.nl (Sample.T ["-3"; "40"; "gene"]) ], None).
Proof.
  apply (identity_round_trip Sample.alt_fasta true
           [ newline;
             Sample.nl ">Feature gb|KJ660346.2|";
             Sample.nl (Sample.T ["12"; "5"; "CDS"; ""; ""]);
             Sample.nl (Sample.T [""; ""; ""; "product"; "polymerase"]);
             newline;
             Sample.nl (Sample.T ["-3"; "40"; "gene"]) ]);
    reflexivity.
Defined.

(** ** More on the text functions *)

Section Substrings.

Lemma length_append_s (u v : string) :
  String.length (u +:+ v) = (String.length u + String.length v)%nat.
Proof.
  induction u as [|c r IH]; [reflexivity|].
  change (String c r +:+ v) with (String c (r +:+ v)). cbn. now rewrite IH.
Qed.

Lemma substring_all s : substring 0 (String.length s) s = s.
Proof. induction s as [|c r IH]; [reflexivity|]. cbn. now rewrite IH. Qed.

Lemma substring_prefix u v : substring 0 (String.length u) (u +:+ v) = u.
Proof.
  induction u as [|c r IH]; [now destruct v|].
  change (String c r +:+ v) with (String c (r +:+ v)). cbn. now rewrite IH.
Qed.

Lemma substring_skip u n m s :
  substring (String.length u + n) m (u +:+ s) = substring n m s.
Proof.
  induction u as [|c r IH]; [reflexivity|].
  change (String c r +:+ s) with (String c (r +:+ s)). cbn. exact IH.
Qed.

Lemma substring_suffix u v :
  substring (String.length u) (String.length v) (u +:+ v) = v.
Proof.
  rewrite <- (Nat.add_0_r (String.length u)), substring_skip.
  apply substring_all.
Qed.

Lemma endswith_suffix u p : Py.endswith p (u +:+ p) = true.
Proof.
  unfold Py.endswith. rewrite length_append_s.
  replace (String.length u + String.length p - String.length p)%nat
    with (String.length u) by lia.
  rewrite substring_suffix, String.eqb_refl.
  destruct (Nat.leb_spec (String.length p)
              (String.length u + String.length p)); [reflexivity|lia].
Qed.

Lemma substring_split n s :
  (n <= String.length s)%nat ->
  substring 0 n s +:+ substring n (String.length s - n) s = s.
Proof.
  revert n. induction s as [|c r IH]; intros n Hn.
  - cbn in Hn. now replace n with 0%nat by lia.
  - destruct n as [|n'].
    + rewrite Nat.sub_0_r, substring_all. reflexivity.
    + cbn [String.length] in *. cbn [substring Nat.sub].
      change (String c ?x +:+ ?y) with (String c (x +:+ y)).
      f_equal. apply IH. lia.
Qed.

Lemma endswith_inv p s :
  Py.endswith p s = true -> exists u, s = u +:+ p.
Proof.
  unfold Py.endswith. intros H. apply andb_prop in H as [Hl He].
  apply Nat.leb_le in Hl. apply String.eqb_eq in He.
  exists (substring 0 (String.length s - String.length p) s).
  pose proof (substring_split (String.length s - String.length p) s) as Hs.
  replace (String.length s - (String.length s - String.length p))%nat
    with (String.length p) in Hs by lia.
  rewrite He in Hs. symmetry. apply Hs. lia.
Qed.

Lemma endswith_app u p s :
  Py.endswith p s = true -> Py.endswith p (u +:+ s) = true.
Proof.
  intros H. apply endswith_inv in H as [w ->].
  rewrite <- append_assoc_s. apply endswith_suffix.
Qed.

Lemma slice_to_suffix u p : Py.slice_to (String.length p) (u +:+ p) = u.
Proof.
  unfold Py.slice_to. rewrite length_append_s.
  replace (String.length u + String.length p - String.length p)%nat
    with (String.length u) by lia.
  apply substring_prefix.
Qed.

Lemma append_last_inj u v c d :
  u +:+ String c "" = v +:+ String d "" -> u = v /\ c = d.
Proof.
  revert v. induction u as [|a r IH]; intros [|b w].
  - now intros [= ->].
  - change (String b w +:+ String d "") with (String b (w +:+ String d "")).
    intros [= _ H]. now destruct w.
  - change (String a r +:+ String c "") with (String a (r +:+ String c "")).
    intros [= _ H]. now destruct r.
  - change (String a r +:+ String c "") with (String a (r +:+ String c "")).
    change (String b w +:+ String d "") with (String b (w +:+ String d "")).
    intros [= -> H]. destruct (IH _ H) as [-> ->]. auto.
Qed.

Lemma rstrip_app_all chars u v :
  Py.all_chars chars v = true ->
  Py.rstrip chars (u +:+ v) = Py.rstrip chars u.
Proof.
  intros Hv.
  assert (Hnil : Py.rstrip chars v = "").
  { induction v as [|c r IH]; [reflexivity|].
    cbn in Hv |- *. apply andb_prop in Hv as [Hc Hr].
    now rewrite (IH Hr), Hc. }
  induction u as [|c r IH]; [exact Hnil|].
  change (String c r +:+ v) with (String c (r +:+ v)).
  cbn [Py.rstrip]. now rewrite IH.
Qed.

Lemma rstrip_last chars u c :
  chars c = false ->
  Py.rstrip chars (u +:+ String c "") = u +:+ String c "".
Proof.
  intros Hc. rewrite rstrip_app_keep; cbn; now rewrite Hc.
Qed.

End Substrings.

(** ** Header lines *)

(** X1.  A Header line [>Feature gb|ACC|] with a non-empty accession is
    answered through the mapper alone: when the mapper knows ACC the line
    [>Feature ] followed by the mapped id is written, ACC and the mapped id
    become the active ids and the retain flag is set, whatever the locals
    were; when the mapper does not know ACC the transfer fails on it. *)
Theorem header_rewritten (cmap : CoordMapper) (alt_chrlens : gmap string Z)
    (oob_clip : bool) (st : locals) (acc : string) :
  acc <> "" ->
  process_line cmap alt_chrlens oob_clip st
    (">Feature gb|" +:+ acc +:+ "|" +:+ newline)
  = match mapAtoB_chrom cmap acc with
    | Some aid =>
        Next {| seqid := Some acc; altid := Some aid;
                feature_keep := Some true |}
             (Some (">Feature " +:+ aid))
    | None => Raise (MapperError acc)
    end.
Proof.
  intros Hacc.
  assert (Hline : stripped (">Feature gb|" +:+ acc +:+ "|" +:+ newline)
                  = ">Feature gb|" +:+ acc +:+ "|").
  { unfold stripped.
    replace (">Feature gb|" +:+ acc +:+ "|" +:+ newline)
      with ((">Feature gb|" +:+ acc +:+ "|") +:+ newline)
      by now rewrite !append_assoc_s.
    rewrite rstrip_app_all by reflexivity.
    rewrite <- append_assoc_s. now apply rstrip_last. }
  unfold process_line. fold (stripped (">Feature gb|" +:+ acc +:+ "|" +:+ newline)).
  rewrite Hline.
  change (classify (">Feature gb|" +:+ acc +:+ "|")) with Header. cbn iota.
  unfold header_line.
  change (Py.startswith ">Feature " (">Feature gb|" +:+ acc +:+ "|"))
    with true. cbn [negb].
  assert (Hslice : Py.slice_from (String.length ">Feature ")
                     (">Feature gb|" +:+ acc +:+ "|")
                   = "gb|" +:+ acc +:+ "|").
  { unfold Py.slice_from.
    change (">Feature gb|" +:+ acc +:+ "|")
      with (">Feature " +:+ "gb|" +:+ acc +:+ "|").
    rewrite (length_append_s ">Feature ").
    replace (String.length ">Feature "
             + String.length ("gb|" +:+ acc +:+ "|")
             - String.length ">Feature ")%nat
      with (String.length ("gb|" +:+ acc +:+ "|")) by lia.
    apply substring_suffix. }
  rewrite Hslice.
  assert (Hstrip : Py.strip ("gb|" +:+ acc +:+ "|") = "gb|" +:+ acc +:+ "|").
  { unfold Py.strip.
    change ("gb|" +:+ acc +:+ "|") with (String "g" ("b|" +:+ acc +:+ "|")).
    rewrite lstrip_head by reflexivity.
    change (String "g" ("b|" +:+ acc +:+ "|")) with ("gb|" +:+ acc +:+ "|").
    rewrite <- append_assoc_s. now apply rstrip_last. }
  rewrite Hstrip.
  assert (Hgb : Py.startswith "gb|" ("gb|" +:+ acc +:+ "|") = true).
  { change ("gb|" +:+ acc +:+ "|")
      with (String "g" (String "b" (String "|" (acc +:+ "|")))).
    rewrite !startswith_cons. cbn [Ascii.eqb Bool.eqb].
    unfold Py.startswith. now destruct (acc +:+ "|"). }
  rewrite Hgb.
  assert (Hend : Py.endswith "|" ("gb|" +:+ acc +:+ "|") = true).
  { rewrite <- append_assoc_s. apply endswith_suffix. }
  rewrite Hend.
  assert (Hlen : (4 <? String.length ("gb|" +:+ acc +:+ "|"))%nat = true).
  { apply Nat.ltb_lt. rewrite !length_append_s. cbn.
    destruct acc; [congruence|cbn; lia]. }
  rewrite Hlen. cbn [andb negb].
  assert (Hacc' : Py.slice_between 3 1 ("gb|" +:+ acc +:+ "|") = acc).
  { unfold Py.slice_between.
    rewrite (length_append_s "gb|"), (length_append_s acc).
    replace (String.length "gb|" + (String.length acc + String.length "|")
             - 1 - 3)%nat with (String.length acc) by (cbn; lia).
    change 3%nat with (String.length "gb|" + 0)%nat.
    rewrite substring_skip. apply substring_prefix. }
  rewrite Hacc'. reflexivity.
Qed.

Lemma header_rewritten_witness :
  process_line Sample.cmap (fasta_chrlens Sample.alt_fasta) false
    (set_keep false Sample.st1) (Sample.nl ">Feature gb|KJ660346.2|")
  = Next Sample.st1 (Some ">Feature alt1").
Proof.
  apply (header_rewritten Sample.cmap (fasta_chrlens Sample.alt_fasta) false
           (set_keep false Sample.st1) "KJ660346.2").
  discriminate.
Defined.

(** ** The output as a stream *)

(** X2.  The output is append-only: the strings written for a document are
    the first strings written for any document that extends it, and a
    transfer that has failed is not changed by what follows. *)
Theorem output_append_only (cmap : CoordMapper) (alt_fasta : list SeqRecord)
    (oob_clip : bool) (doc more : list string) :
  (exists tail,
     fst (tbl_transfer cmap (doc ++ more) alt_fasta oob_clip)
     = (fst (tbl_transfer cmap doc alt_fasta oob_clip) ++ tail)%list)
  /\ (forall e,
        snd (tbl_transfer cmap doc alt_fasta oob_clip) = Some e ->
        tbl_transfer cmap (doc ++ more) alt_fasta oob_clip
        = tbl_transfer cmap doc alt_fasta oob_clip).
Proof.
  unfold tbl_transfer. rewrite run_app.
  destruct (run cmap (fasta_chrlens alt_fasta) oob_clip unbound doc)
    as [out1 [st1|e1]].
  - destruct (run cmap (fasta_chrlens alt_fasta) oob_clip st1 more)
      as [out2 r2].
    split; [exists out2; reflexivity|]. cbn. discriminate.
  - split; [exists []; cbn; now rewrite app_nil_r|]. reflexivity.
Qed.

(** X3.  The transfer writes at most one string for each line it reads, and
    every string it writes ends with a line feed. *)
Theorem output_bounded (cmap : CoordMapper) (alt_fasta : list SeqRecord)
    (oob_clip : bool) (doc : list string) :
  (List.length (fst (tbl_transfer cmap doc alt_fasta oob_clip))
   <= List.length doc)%nat
  /\ (forall c, In c (fst (tbl_transfer cmap doc alt_fasta oob_clip)) ->
        Py.endswith newline c = true).
Proof.
  split.
  - rewrite tbl_transfer_fst. generalize unbound.
    induction doc as [|raw doc IH]; intros st; [cbn; lia|].
    cbn [run].
    destruct (process_line cmap (fasta_chrlens alt_fasta) oob_clip st raw)
      as [e|st' w]; [cbn; lia|].
    specialize (IH st').
    destruct (run cmap (fasta_chrlens alt_fasta) oob_clip st' doc) as [out r].
    destruct w; cbn in *; lia.
  - intros c Hin. rewrite tbl_transfer_fst in Hin.
    apply run_written in Hin as (raw & st0 & st1 & w & _ & _ & ->).
    apply endswith_suffix.
Qed.

(** ** A mapped position 0 *)

(** X5.  The test [row[0] and row[1]] takes a mapped position 0 for a
    missing one: when both endpoints are mapped and one of them to 0, the
    Feature is handled like an overhang.  With clip mode off it is dropped
    and the retain flag cleared; with clip mode on its line is written with
    both mapped endpoints and the retain flag is left as it was. *)
Theorem mapped_zero_is_overhang (cmap : CoordMapper)
    (alt_chrlens : gmap string Z) (st : locals) (raw : string) (a b : Z)
    (rest : list string) (sid : string) (p q : Z) :
  parse_coordinate raw = Some (a, b, rest) ->
  seqid st = Some sid ->
  map_endpoints cmap sid a b = (VInt p, VInt q) ->
  p = 0 \/ q = 0 ->
  process_line cmap alt_chrlens false st raw = Next (set_keep false st) None
  /\ process_line cmap alt_chrlens true st raw
     = Next st (Some (Py.join tab (Py.str p :: Py.str q :: rest))).
Proof.
  intros Hp Hs Hm Hz.
  rewrite !(process_coordinate _ _ _ _ _ _ _ _ _ Hp Hs), Hm.
  unfold resolve. cbn [fst snd truth is_none andb].
  assert (Ht : negb (p =? 0) && negb (q =? 0) = false).
  { destruct Hz as [-> | ->]; [reflexivity|]. cbn. apply andb_false_r. }
  rewrite Ht. split; reflexivity.
Qed.

Lemma mapped_zero_is_overhang_witness :
  process_line Sample.shift5 (fasta_chrlens Sample.alt_fasta) false Sample.st1
    (Sample.nl (Sample.T ["5"; "12"; "gene"]))
  = Next (set_keep false Sample.st1) None.
Proof.
  apply (mapped_zero_is_overhang Sample.shift5
           (fasta_chrlens Sample.alt_fasta) Sample.st1
           (Sample.nl (Sample.T ["5"; "12"; "gene"])) 5 12 ["gene"]
           "KJ660346.2" 0 7 eq_refl eq_refl eq_refl).
  now left.
Defined.

(** ** More on the length table *)

Section LengthTable.

Lemma last_record_snoc k l r :
  last_record k (l ++ [r])
  = if String.eqb (rec_id r) k then Some r else last_record k l.
Proof. unfold last_record. now rewrite rev_app_distr. Qed.

End LengthTable.

(** X7.  The length table holds, for each id, the length of the last
    record of the file with that id, and nothing for an id no record has:
    a later record with the same id replaces an earlier one. *)
Theorem fasta_chrlens_last_wins (fasta : list SeqRecord) (k : string) :
  fasta_chrlens fasta !! k = seq_len <$> last_record k fasta.
Proof.
  induction fasta as [|r l IH] using rev_ind.
  - unfold fasta_chrlens. cbn. apply lookup_empty.
  - rewrite fasta_chrlens_snoc, last_record_snoc.
    destruct (String.eqb_spec (rec_id r) k) as [->|Hne].
    + now rewrite lookup_insert_eq.
    + now rewrite lookup_insert_ne.
Qed.

(** ** The length table and the mapper *)

Section KnownLengths.

Variable cmap : CoordMapper.
Variable alt_chrlens : gmap string Z.
Variable oob_clip : bool.

Hypothesis lengths_known : lengths_cover cmap alt_chrlens.

Local Abbreviation has_length st :=
  (forall aid, altid st = Some aid -> is_Some (alt_chrlens !! aid)).

Lemma known_length_step st raw :
  has_length st ->
  match process_line cmap alt_chrlens oob_clip st raw with
  | Raise e => forall k, e <> KeyError k
  | Next st' _ => has_length st'
  end.
Proof.
  intros Hst. unfold process_line. fold (stripped raw).
  destruct (classify (stripped raw)).
  - exact Hst.
  - unfold header_line.
    destruct (negb (Py.startswith ">Feature " (stripped raw)));
      [discriminate|].
    destruct (negb _); [discriminate|].
    destruct (mapAtoB_chrom cmap _) as [aid|] eqn:Ha; [|discriminate].
    cbn. intros aid' [= <-]. eapply lengths_known. exact Ha.
  - unfold coordinate_line.
    destruct (Py.split Py.TAB (stripped raw)) as [|c0 [|c1 rest]];
      try discriminate.
    destruct (Py.int c0); [|discriminate].
    destruct (Py.int c1); [|discriminate].
    destruct (seqid st); [|discriminate].
    destruct (map_endpoints cmap _ _ _) as [r0 r1].
    unfold resolve.
    destruct (truth r0 && truth r1); [exact Hst|].
    destruct (is_none r0 && is_none r1); [exact Hst|].
    destruct oob_clip; [|exact Hst].
    destruct (is_none r1); [|exact Hst].
    destruct (altid st) as [aid|] eqn:Ha; [|discriminate].
    destruct (Hst aid eq_refl) as [len Hl]. rewrite Hl.
    intros aid' Ha'. rewrite Ha in Ha'. apply Hst. exact Ha'.
  - unfold qualifier_line.
    destruct (feature_keep st) as [[|]|]; [|exact Hst|discriminate].
    now destruct (Py.contains _ _).
Qed.

Lemma known_length_run st doc out e :
  has_length st ->
  run cmap alt_chrlens oob_clip st doc = (out, Failed e) ->
  forall k, e <> KeyError k.
Proof.
  revert st out. induction doc as [|raw doc IH]; intros st out Hst.
  - discriminate.
  - cbn [run]. pose proof (known_length_step st raw Hst) as H.
    destruct (process_line cmap alt_chrlens oob_clip st raw) as [e'|st' w].
    + now intros [= _ <-].
    + destruct (run cmap alt_chrlens oob_clip st' doc) as [out' r] eqn:Er.
      intros [= _ ->]. eapply IH; eassumption.
Qed.

End KnownLengths.

Lemma fasta_chrlens_has fasta r :
  In r fasta -> is_Some (fasta_chrlens fasta !! rec_id r).
Proof.
  induction fasta as [|r' l IH] using rev_ind; [intros []|].
  rewrite fasta_chrlens_snoc. intros Hin. apply in_app_or in Hin.
  destruct (decide (rec_id r' = rec_id r)) as [E|NE].
  - rewrite E, lookup_insert_eq. eauto.
  - rewrite lookup_insert_ne by assumption.
    destruct Hin as [Hin|[->|[]]]; [auto|congruence].
Qed.

(** X6.  When every id the mapper gives is the id of a record of the
    alternate assembly, the transfer never fails on a missing entry of the
    length table, in either clip mode. *)
Theorem no_missing_length (cmap : CoordMapper) (alt_fasta : list SeqRecord)
    (oob_clip : bool) (doc : list string) :
  (forall s aid, mapAtoB_chrom cmap s = Some aid ->
     exists r, In r alt_fasta /\ rec_id r = aid) ->
  forall k, snd (tbl_transfer cmap doc alt_fasta oob_clip) <> Some (KeyError k).
Proof.
  intros Hids k. rewrite tbl_transfer_snd.
  destruct (run cmap (fasta_chrlens alt_fasta) oob_clip unbound doc)
    as [out [st|e]] eqn:Er; [discriminate|].
  assert (Hcover : lengths_cover cmap (fasta_chrlens alt_fasta)).
  { intros s aid Ha. destruct (Hids s aid Ha) as (r & Hin & <-).
    now apply fasta_chrlens_has. }
  assert (Hunb : forall aid, altid unbound = Some aid ->
                   is_Some (fasta_chrlens alt_fasta !! aid))
    by discriminate.
  cbn. intros [= ->].
  exact (known_length_run cmap (fasta_chrlens alt_fasta) oob_clip Hcover
           unbound doc out (KeyError k) Hunb Er k eq_refl).
Qed.

Lemma no_missing_length_witness :
  snd (tbl_transfer Sample.cmap Sample.doc Sample.alt_fasta true)
  <> Some (KeyError "alt1").
Proof.
  apply (no_missing_length Sample.cmap Sample.alt_fasta true Sample.doc).
  intros s aid. cbn. destruct (String.eqb s "KJ660346.2"); [|discriminate].
  intros [= <-]. eexists. split; [left; reflexivity|reflexivity].
Defined.

(** ** Clip mode against drop mode *)

Section ClipModes.

Variable cmap : CoordMapper.
Variable alt_chrlens : gmap string Z.

Lemma clip_step st_off st_on raw :
  clip_related st_off st_on ->
  match process_line cmap alt_chrlens true st_on raw with
  | Raise _ => True
  | Next st_on' w_on =>
      exists st_off' w_off,
        process_line cmap alt_chrlens false st_off raw = Next st_off' w_off
        /\ clip_related st_off' st_on'
        /\ (w_off = None \/ w_off = w_on)
  end.
Proof.
  intros (Hs & Ha & Hk). unfold process_line. fold (stripped raw).
  destruct (classify (stripped raw)).
  - exists st_off, (Some (stripped raw)). repeat split; auto.
  - unfold header_line.
    destruct (negb (Py.startswith ">Feature " (stripped raw))); [exact I|].
    destruct (negb _); [exact I|].
    destruct (mapAtoB_chrom cmap _) as [aid|]; [|exact I].
    eexists _, _. repeat split; auto.
  - unfold coordinate_line.
    destruct (Py.split Py.TAB (stripped raw)) as [|c0 [|c1 rest]];
      try exact I.
    destruct (Py.int c0); [|exact I].
    destruct (Py.int c1); [|exact I].
    rewrite Hs. destruct (seqid st_on) as [sid|] eqn:Hon; [|exact I].
    destruct (map_endpoints cmap sid _ _) as [r0 r1].
    unfold resolve.
    destruct (truth r0 && truth r1).
    { eexists _, _. split; [reflexivity|].
      repeat split; cbn; first [congruence|auto]. }
    destruct (is_none r0 && is_none r1).
    { eexists _, _. split; [reflexivity|].
      repeat split; cbn; first [congruence|auto]. }
    assert (Hdrop : clip_related (set_keep false st_off) st_on)
      by (repeat split; cbn; first [congruence|auto]).
    destruct (is_none r1).
    + destruct (altid st_on); [|exact I].
      destruct (alt_chrlens !! _); [|exact I].
      eexists _, _. split; [reflexivity|]. split; [exact Hdrop|now left].
    + eexists _, _. split; [reflexivity|]. split; [exact Hdrop|now left].
  - unfold qualifier_line.
    destruct (feature_keep st_on) as [[|]|] eqn:Hon; [| |exact I].
    + destruct Hk as [Hk|Hk]; rewrite Hk.
      * destruct (Py.contains _ _); eexists _, _;
          (split; [reflexivity|]); repeat split; auto; left; congruence.
      * destruct (Py.contains _ _); eexists _, _;
          (split; [reflexivity|]); repeat split; auto.
    + assert (Hoff : feature_keep st_off = Some false)
        by (destruct Hk; congruence).
      rewrite Hoff. eexists _, _. split; [reflexivity|].
      repeat split; auto.
Qed.

Lemma clip_run st_off st_on doc out_on st_on' :
  clip_related st_off st_on ->
  run cmap alt_chrlens true st_on doc = (out_on, Done st_on') ->
  exists out_off st_off',
    run cmap alt_chrlens false st_off doc = (out_off, Done st_off')
    /\ out_off `sublist_of` out_on.
Proof.
  revert st_off st_on out_on. induction doc as [|raw doc IH];
    intros st_off st_on out_on Hrel.
  - cbn. intros [= <- _]. eexists _, _. split; [reflexivity|constructor].
  - cbn [run]. pose proof (clip_step st_off st_on raw Hrel) as H.
    destruct (process_line cmap alt_chrlens true st_on raw) as [e|s1 w_on];
      [discriminate|].
    destruct H as (s0 & w_off & -> & Hrel' & Hw).
    destruct (run cmap alt_chrlens true s1 doc) as [out1 r1] eqn:Er.
    intros [= <- ->].
    destruct (IH _ _ _ Hrel' Er) as (out0 & s0' & -> & Hsub).
    eexists _, _. split; [reflexivity|].
    destruct Hw as [-> | ->].
    + destruct w_on; [now constructor|exact Hsub].
    + destruct w_on; [now constructor|exact Hsub].
Qed.

End ClipModes.

(** X4.  Clip mode only adds lines: when the transfer completes with clip
    mode on, it completes with clip mode off as well, and what it writes
    then is what it writes with clip mode on with some lines left out. *)
Theorem clip_only_adds (cmap : CoordMapper) (alt_fasta : list SeqRecord)
    (doc out_on : list string) :
  tbl_transfer cmap doc alt_fasta true = (out_on, None) ->
  exists out_off,
    tbl_transfer cmap doc alt_fasta false = (out_off, None)
    /\ out_off `sublist_of` out_on.
Proof.
  unfold tbl_transfer.
  destruct (run cmap (fasta_chrlens alt_fasta) true unbound doc)
    as [out [st|e]] eqn:Er; [|discriminate].
  intros [= <-].
  destruct (clip_run cmap (fasta_chrlens alt_fasta) unbound unbound doc out st)
    as (out_off & st' & -> & Hsub); [repeat split; auto|exact Er|].
  eauto.
Qed.

Lemma clip_only_adds_witness :
  exists out_off,
    tbl_transfer Sample.cmap Sample.doc Sample.alt_fasta false
    = (out_off, None)
    /\ out_off `sublist_of`
         [ Sample.nl ">Feature alt1";
           Sample.nl (Sample.T ["10"; ">12"; "CDS"]);
           Sample.nl (Sample.T ["3"; "9"; "gene"]);
           Sample.nl (Sample.T [""; ""; ""; "gene"; "NP"]) ].
Proof.
  apply (clip_only_adds Sample.cmap Sample.alt_fasta Sample.doc).
  vm_compute. reflexivity.
Defined.

(** ** File names of the submission *)

Section FileNames.

(** Of two endings of one string, the shorter is an ending of the longer. *)
Lemma append_split u p v q :
  u +:+ p = v +:+ q -> (String.length q <= String.length p)%nat ->
  exists w, p = w +:+ q.
Proof.
  revert v. induction u as [|a u' IH]; intros v H Hlen.
  - exists v. exact H.
  - destruct v as [|b v'].
    + exfalso. change ("" +:+ q) with q in H. subst q.
      change (String a u' +:+ p) with (String a (u' +:+ p)) in Hlen.
      cbn [String.length] in Hlen. rewrite length_append_s in Hlen. lia.
    + change (String a u' +:+ p) with (String a (u' +:+ p)) in H.
      change (String b v' +:+ q) with (String b (v' +:+ q)) in H.
      injection H as _ H. eauto.
Qed.

Lemma endswith_both p q s :
  Py.endswith p s = true -> Py.endswith q s = true ->
  (String.length q <= String.length p)%nat ->
  Py.endswith q p = true.
Proof.
  intros Hp Hq Hlen.
  apply endswith_inv in Hp as [u ->]. apply endswith_inv in Hq as [v Hv].
  destruct (append_split _ _ _ _ Hv Hlen) as [w ->].
  apply endswith_suffix.
Qed.

Lemma fsa_not_fasta s :
  Py.endswith ".fsa" s = true ->
  Py.endswith ".fasta" s = false /\ Py.endswith ".fa" s = false.
Proof.
  intros H. split.
  - destruct (Py.endswith ".fasta" s) eqn:E; [|reflexivity].
    pose proof (endswith_both _ _ _ E H) as H'. cbn in H'.
    discriminate H'. lia.
  - destruct (Py.endswith ".fa" s) eqn:E; [|reflexivity].
    pose proof (endswith_both _ _ _ H E) as H'. cbn in H'.
    discriminate H'. lia.
Qed.

Lemma fa_not_fasta stem : Py.endswith ".fasta" (stem +:+ ".fa") = false.
Proof.
  destruct (Py.endswith ".fasta" (stem +:+ ".fa")) eqn:E; [|reflexivity].
  pose proof (endswith_both _ _ _ E (endswith_suffix stem ".fa")) as H'.
  cbn in H'. discriminate H'. lia.
Qed.

Lemma has_char_app c u v :
  Py.has_char c (u +:+ v) = Py.has_char c u || Py.has_char c v.
Proof.
  induction u as [|a r IH]; [reflexivity|].
  change (String a r +:+ v) with (String a (r +:+ v)). cbn.
  now rewrite IH, orb_assoc.
Qed.

Lemma has_char_prefix c n s :
  Py.has_char c s = false -> Py.has_char c (substring 0 n s) = false.
Proof.
  revert n. induction s as [|a r IH]; intros n; [now destruct n|].
  cbn. intros H. apply orb_false_elim in H as [Ha Hr].
  destruct n; [reflexivity|]. cbn. now rewrite Ha, IH.
Qed.

Lemma basename_no_slash p : Py.has_char "/" (PosixPath.basename p) = false.
Proof.
  induction p as [|c r IH]; [reflexivity|].
  cbn [PosixPath.basename].
  destruct (Py.has_char "/" r) eqn:Hr; [exact IH|].
  destruct (Ascii.eqb c "/") eqn:Hc; [exact Hr|].
  cbn [Py.has_char]. now rewrite Hc, Hr.
Qed.

Lemma basename_id n :
  Py.has_char "/" n = false -> PosixPath.basename n = n.
Proof.
  destruct n as [|c r]; [reflexivity|].
  cbn. intros H. apply orb_false_elim in H as [Hc Hr].
  now rewrite Hr, Hc.
Qed.

Lemma basename_app_slash u n :
  Py.has_char "/" n = false -> PosixPath.basename (u +:+ "/" +:+ n) = n.
Proof.
  intros Hn. induction u as [|c r IH].
  - change ("" +:+ "/" +:+ n) with (String "/" n).
    cbn [PosixPath.basename]. now rewrite Hn.
  - change (String c r +:+ "/" +:+ n) with (String c (r +:+ "/" +:+ n)).
    cbn [PosixPath.basename].
    rewrite has_char_app. change ("/" +:+ n) with (String "/" n).
    cbn [Py.has_char Ascii.eqb Bool.eqb]. rewrite orb_true_r.
    exact IH.
Qed.

(** The base name of a joined path is the name that was joined. *)
Lemma basename_join d n :
  Py.has_char "/" n = false ->
  PosixPath.basename (PosixPath.join d n) = n.
Proof.
  intros Hn. unfold PosixPath.join.
  assert (Hs : Py.startswith "/" n = false).
  { destruct n as [|c r]; [reflexivity|].
    rewrite startswith_cons. cbn in Hn.
    apply orb_false_elim in Hn as [-> _]. reflexivity. }
  rewrite Hs.
  destruct (String.eqb_spec d "") as [->|Hd].
  - cbn. now apply basename_id.
  - cbn [orb]. destruct (Py.endswith "/" d) eqn:He.
    + apply endswith_inv in He as [u ->].
      rewrite append_assoc_s. now apply basename_app_slash.
    + now apply basename_app_slash.
Qed.

(** The name [fasta2fsa] returns is a name ending in [.fsa], without a
    directory part, joined to the output directory. *)
Lemma fasta2fsa_name infname outdir :
  exists n, snd (fasta2fsa infname outdir) = PosixPath.join outdir n
            /\ Py.endswith ".fsa" n = true
            /\ Py.has_char "/" n = false.
Proof.
  unfold fasta2fsa. cbn [snd].
  set (b := PosixPath.basename infname).
  assert (Hb : Py.has_char "/" b = false) by apply basename_no_slash.
  set (m := if Py.endswith ".fasta" b then Py.slice_to 6 b
            else if Py.endswith ".fa" b then Py.slice_to 3 b else b).
  assert (Hm : Py.has_char "/" m = false).
  { unfold m, Py.slice_to.
    destruct (Py.endswith ".fasta" b); [now apply has_char_prefix|].
    destruct (Py.endswith ".fa" b); [now apply has_char_prefix|exact Hb]. }
  destruct (Py.endswith ".fsa" m) eqn:Hf; cbn [negb].
  - exists m. auto.
  - exists (m +:+ ".fsa"). split; [reflexivity|].
    split; [apply endswith_suffix|].
    rewrite has_char_app, Hm. reflexivity.
Qed.

Lemma join_endswith p d n :
  Py.endswith p n = true -> Py.endswith p (PosixPath.join d n) = true.
Proof.
  intros H. unfold PosixPath.join.
  destruct (Py.startswith "/" n); [exact H|].
  destruct (String.eqb d "" || Py.endswith "/" d).
  - now apply endswith_app.
  - apply endswith_app. now apply endswith_app.
Qed.

End FileNames.

(** X8.  The name [fasta2fsa] returns always ends in [.fsa], and so does
    its base name; the one copy [fasta2fsa] makes is from [infname] to that
    name. *)
Theorem fasta2fsa_ends_fsa (infname outdir : string) :
  Py.endswith ".fsa" (snd (fasta2fsa infname outdir)) = true
  /\ Py.endswith ".fsa" (PosixPath.basename (snd (fasta2fsa infname outdir)))
     = true
  /\ fst (fasta2fsa infname outdir)
     = {| copy_src := infname; copy_dst := snd (fasta2fsa infname outdir) |}.
Proof.
  destruct (fasta2fsa_name infname outdir) as (n & Hn & Hf & Hs).
  rewrite Hn. split; [now apply join_endswith|].
  split; [now rewrite basename_join|].
  rewrite <- Hn. reflexivity.
Qed.

(** X9.  [fasta2fsa] replaces one ending [.fasta] or [.fa] of the base name
    by [.fsa], and keeps a base name that already ends in [.fsa]: for a base
    name [stem.fasta] or [stem.fa] whose stem does not itself end in [.fsa]
    the result is [stem.fsa] under [outdir]; when the stem ends in [.fsa]
    the result is the stem under [outdir]. *)
Theorem fasta2fsa_renames (infname outdir stem : string) :
  PosixPath.basename infname = stem +:+ ".fasta"
  \/ PosixPath.basename infname = stem +:+ ".fa" ->
  snd (fasta2fsa infname outdir)
  = PosixPath.join outdir
      (if Py.endswith ".fsa" stem then stem else stem +:+ ".fsa").
Proof.
  intros H. unfold fasta2fsa. cbn [snd].
  pose proof (slice_to_suffix stem ".fasta") as H6.
  pose proof (slice_to_suffix stem ".fa") as H3.
  cbn [String.length] in H6, H3. destruct H as [-> | ->].
  - rewrite endswith_suffix, H6.
    now destruct (Py.endswith ".fsa" stem).
  - rewrite fa_not_fasta, endswith_suffix, H3.
    now destruct (Py.endswith ".fsa" stem).
Qed.

Lemma fasta2fsa_renames_witness :
  snd (fasta2fsa "assemblies/sample1.fasta" "out/")
  = PosixPath.join "out/" "sample1.fsa".
Proof.
  apply (fasta2fsa_renames "assemblies/sample1.fasta" "out/" "sample1").
  left. reflexivity.
Defined.

(** X10.  Given a name it returned and the same output directory,
    [fasta2fsa] computes that name again, so the copy it asks for is of
    the file onto itself: source and destination are the same path (the
    call [shutil.copyfile] answers with [SameFileError]). *)
Theorem fasta2fsa_copies_onto_itself (infname outdir : string) :
  fst (fasta2fsa (snd (fasta2fsa infname outdir)) outdir)
  = {| copy_src := snd (fasta2fsa infname outdir);
       copy_dst := snd (fasta2fsa infname outdir) |}.
Proof.
  destruct (fasta2fsa_name infname outdir) as (n & Hn & Hf & Hs).
  rewrite Hn. unfold fasta2fsa at 1. cbn [fst].
  rewrite (basename_join outdir n Hs).
  destruct (fsa_not_fasta n Hf) as [-> ->]. now rewrite Hf.
Qed.

(** X11.  In [prep_genbank_files], a file [stem.fasta] found by the glob is
    copied to [stem.fsa] in the annotation directory and, when a source
    table is given, the table is copied to [stem.src] beside it, provided
    the stem does not itself end in [.fsa]; without a source table (none,
    or an empty path) only the first copy is made. *)
Theorem prep_genbank_files_pairs (fn annotDir stem : string)
    (master_source_table : option string) :
  PosixPath.basename fn = stem +:+ ".fasta" ->
  Py.endswith ".fsa" stem = false ->
  prep_genbank_files_copies [fn] annotDir master_source_table
  = {| copy_src := fn;
       copy_dst := PosixPath.join annotDir (stem +:+ ".fsa") |}
    :: match master_source_table with
       | Some m =>
           if String.eqb m "" then []
           else [ {| copy_src := m;
                     copy_dst := PosixPath.join annotDir (stem +:+ ".src") |} ]
       | None => []
       end.
Proof.
  intros Hb Hs. unfold prep_genbank_files_copies. cbn [List.flat_map].
  rewrite app_nil_r.
  pose proof (slice_to_suffix stem ".fasta") as H6.
  cbn [String.length] in H6.
  assert (Hname : fst (fasta2fsa fn annotDir)
                  = {| copy_src := fn;
                       copy_dst := PosixPath.join annotDir (stem +:+ ".fsa") |}).
  { unfold fasta2fsa. cbn [fst]. rewrite Hb, endswith_suffix, H6, Hs.
    reflexivity. }
  rewrite Hname, Hb, H6. reflexivity.
Qed.

Lemma prep_genbank_files_pairs_witness :
  prep_genbank_files_copies ["fasta/EBOV.1.fasta"] "annot"
    (Some "meta/master.src")
  = [ {| copy_src := "fasta/EBOV.1.fasta"; copy_dst := "annot/EBOV.1.fsa" |};
      {| copy_src := "meta/master.src"; copy_dst := "annot/EBOV.1.src" |} ].
Proof.
  apply (prep_genbank_files_pairs "fasta/EBOV.1.fasta" "annot" "EBOV.1"
           (Some "meta/master.src")); reflexivity.
Defined.

(** ** The SRA table *)

Section Metadata.

Lemma get_item_setdefault k k' f (m : metadata) :
  get_item k' f (setdefault k m) = get_item k' f m.
Proof.
  unfold get_item, setdefault. destruct (m !! k) eqn:E; [reflexivity|].
  destruct (decide (k = k')) as [<-|Hne].
  - now rewrite lookup_insert_eq, E.
  - now rewrite lookup_insert_ne.
Qed.

Lemma setdefault_is_Some k (m : metadata) : is_Some (setdefault k m !! k).
Proof.
  unfold setdefault. destruct (m !! k) eqn:E; [rewrite E; eauto|].
  rewrite lookup_insert_eq. eauto.
Qed.

Lemma set_item_is_Some k f v (m : metadata) :
  is_Some (m !! k) -> is_Some (set_item k f v m !! k).
Proof. intros H. unfold set_item. now apply lookup_alter_is_Some. Qed.

(** Reading a field back after an assignment. *)
Lemma get_item_set_item k f v (m : metadata) k' f' :
  is_Some (m !! k) ->
  get_item k' f' (set_item k f v m)
  = if decide (k = k' /\ f = f') then v else get_item k' f' m.
Proof.
  intros [d Hd]. unfold get_item, set_item. rewrite lookup_alter.
  destruct (decide (k = k')) as [<-|Hk].
  - rewrite Hd. cbn. destruct (decide (f = f')) as [<-|Hf].
    + rewrite lookup_insert_eq. cbn.
      destruct (decide (k = k /\ f = f)) as [_|N]; [reflexivity|].
      exfalso. apply N. auto.
    + rewrite lookup_insert_ne by assumption.
      destruct (decide (k = k /\ f = f')) as [[_ E]|_]; [contradiction|].
      reflexivity.
  - destruct (decide (k = k' /\ f = f')) as [[E _]|_]; [contradiction|].
    reflexivity.
Qed.

Lemma load_snoc step (m : metadata) l x :
  load step m (l ++ [x])
  = match load step m l with
    | inl e => inl e
    | inr m' => step m' x
    end.
Proof.
  revert m. induction l as [|y l IH]; intros m; cbn.
  - now destruct (step m x).
  - destruct (step m y); [reflexivity|apply IH].
Qed.

End Metadata.

Section Separators.

Variable sep : ascii.

Lemma join_split_sep s : Py.join (String sep "") (Py.split sep s) = s.
Proof.
  induction s as [|c r IH]; [reflexivity|].
  cbn [Py.split].
  destruct (Py.split sep r) as [|w ws] eqn:Er;
    [exfalso; eapply split_nonempty; exact Er|].
  destruct (Ascii.eqb c sep) eqn:E.
  - apply Ascii.eqb_eq in E. subst c. rewrite join_cons2, IH. reflexivity.
  - destruct ws as [|w' ws'].
    + cbn in IH |- *. congruence.
    + rewrite join_cons2 in IH |- *. rewrite <- IH. reflexivity.
Qed.

Lemma split_no_sep s :
  Forall (fun w => Py.has_char sep w = false) (Py.split sep s).
Proof.
  induction s as [|c r IH]; cbn [Py.split].
  - repeat constructor.
  - destruct (Ascii.eqb c sep) eqn:E.
    + constructor; [reflexivity|exact IH].
    + destruct (Py.split sep r) as [|w ws];
        [repeat constructor; cbn; now rewrite E|].
      inversion IH; subst. constructor; [|assumption].
      cbn. now rewrite E.
Qed.

Lemma join_snoc l x :
  l <> [] ->
  Py.join (String sep "") (l ++ [x])%list
  = Py.join (String sep "") l +:+ String sep "" +:+ x.
Proof.
  induction l as [|y l IH]; [congruence|]. intros _.
  destruct l as [|z l'].
  - reflexivity.
  - cbn [app] in *. rewrite !(join_cons2 _ y z).
    rewrite IH by discriminate. now rewrite !append_assoc_s.
Qed.

Lemma split_has_sep s :
  (1 <? List.length (Py.split sep s))%nat = Py.has_char sep s.
Proof.
  induction s as [|c r IH]; [reflexivity|].
  cbn [Py.split Py.has_char].
  destruct (Py.split sep r) as [|w ws] eqn:Er;
    [exfalso; eapply split_nonempty; exact Er|].
  destruct (Ascii.eqb c sep); [reflexivity|]. exact IH.
Qed.

End Separators.

Section Libraries.

Local Abbreviation agree m0 m :=
  (forall k f, loaded_field f = true -> get_item k f m = get_item k f m0).

Lemma loaded_field_inv f :
  loaded_field f = true ->
  f <> "sample_name" /\ f <> "library_ID".
Proof.
  unfold loaded_field. intros H.
  apply orb_prop in H as [H|H]; [apply orb_prop in H as [H|H]|];
    apply String.eqb_eq in H; subst f; split; discriminate.
Qed.

(** A library line that passes the [assert] writes its row from the loaded
    fields and changes none of them. *)
Lemma library_line_ok (m0 m : metadata) line :
  agree m0 m -> library_ok line = true ->
  exists m', library_line m line = inr (m', sra_row m0 line) /\ agree m0 m'.
Proof.
  intros Hag Hok. unfold library_line. unfold library_ok in Hok.
  rewrite Hok. fold (sample_of line).
  set (s := sample_of line). set (lib := Py.rstrip Py.is_crlf line).
  set (m1 := setdefault s m).
  set (m2 := set_item s "library_ID" lib m1).
  set (m3 := set_item s "sample_name" s m2).
  assert (H1 : is_Some (m1 !! s)) by apply setdefault_is_Some.
  assert (H2 : is_Some (m2 !! s)) by now apply set_item_is_Some.
  assert (Hget : forall k f,
             get_item k f m3
             = if decide (s = k /\ "sample_name" = f) then s
               else if decide (s = k /\ "library_ID" = f) then lib
                    else get_item k f m).
  { intros k f. unfold m3, m2.
    rewrite get_item_set_item by assumption.
    destruct (decide (s = k /\ "sample_name" = f)); [reflexivity|].
    rewrite get_item_set_item by assumption.
    destruct (decide (s = k /\ "library_ID" = f)); [reflexivity|].
    apply get_item_setdefault. }
  assert (Hag' : agree m0 m3).
  { intros k f Hf. rewrite Hget.
    destruct (loaded_field_inv f Hf) as [Hs Hl].
    destruct (decide (s = k /\ "sample_name" = f)) as [[_ E]|_];
      [congruence|].
    destruct (decide (s = k /\ "library_ID" = f)) as [[_ E]|_];
      [congruence|].
    now apply Hag. }
  exists m3. split; [|exact Hag'].
  apply (f_equal inr). apply (f_equal (pair m3)).
  unfold sra_row, sra_header. cbn [List.map].
  fold s lib.
  rewrite (Hag' s "biosample_accession"), (Hag' s "filename"),
    (Hag' s "MD5_checksum") by reflexivity.
  rewrite (Hget s "sample_name"), (Hget s "library_ID").
  destruct (decide (s = s /\ "sample_name" = "sample_name")) as [_|N];
    [|exfalso; apply N; auto].
  destruct (decide (s = s /\ "library_ID" = "sample_name")) as [[_ E]|_];
    [discriminate E|].
  destruct (decide (s = s /\ "sample_name" = "library_ID")) as [[_ E]|_];
    [discriminate E|].
  destruct (decide (s = s /\ "library_ID" = "library_ID")) as [_|N];
    [|exfalso; apply N; auto].
  reflexivity.
Qed.

Lemma write_libraries_ok (m0 m : metadata) libs :
  agree m0 m -> forallb library_ok libs = true ->
  write_libraries m libs
  = (List.map (fun line => sra_row m0 line +:+ newline) libs, None).
Proof.
  revert m. induction libs as [|line libs IH]; intros m Hag; [reflexivity|].
  cbn [forallb write_libraries List.map]. intros H.
  apply andb_prop in H as [Hok Hrest].
  destruct (library_line_ok m0 m line Hag Hok) as (m' & -> & Hag').
  now rewrite (IH m' Hag' Hrest).
Qed.

Lemma write_libraries_stop (m0 m : metadata) good bad rest :
  agree m0 m -> forallb library_ok good = true -> library_ok bad = false ->
  write_libraries m (good ++ bad :: rest)
  = (List.map (fun line => sra_row m0 line +:+ newline) good,
     Some AssertionError).
Proof.
  revert m. induction good as [|line good IH]; intros m Hag.
  - intros _ Hbad. cbn [app write_libraries List.map].
    unfold library_line. unfold library_ok in Hbad. now rewrite Hbad.
  - cbn [forallb app write_libraries List.map]. intros H Hbad.
    apply andb_prop in H as [Hok Hrest].
    destruct (library_line_ok m0 m line Hag Hok) as (m' & -> & Hag').
    now rewrite (IH m' Hag' Hrest Hbad).
Qed.

End Libraries.

(** X12.  When the BioSample and MD5 files load and every library line
    passes its check, the table is the column heading followed by one row
    for each library line, in order: the BioSample accession of its sample,
    the sample, the library line itself, and the file name and MD5 checksum
    of the sample, each taken from the loaded metadata and empty when the
    sample has none. *)
Theorem sra_table_rows (lib_lines biosample_lines md5_lines : list string)
    (m1 m2 : metadata) :
  load biosample_line ∅ (List.tl biosample_lines) = inr m1 ->
  load md5_line m1 md5_lines = inr m2 ->
  forallb library_ok lib_lines = true ->
  prep_sra_table lib_lines biosample_lines md5_lines
  = SraOutput
      ((Py.join tab sra_header +:+ newline)
       :: List.map (fun line => sra_row m2 line +:+ newline) lib_lines)
      None.
Proof.
  intros H1 H2 Hok. unfold prep_sra_table. rewrite H1, H2.
  rewrite (write_libraries_ok m2 m2) by auto. reflexivity.
Qed.

Lemma sra_table_rows_witness :
  prep_sra_table SraSample.libs SraSample.biosamples SraSample.md5s
  = SraOutput
      [ Sample.nl (Sample.T sra_header);
        Sample.nl (Sample.T ["SAMN001"; "S1"; "S1.l1"; "bams/S1.cleaned.bam";
                             "0cc175b9c0f1b6a8"]);
        Sample.nl (Sample.T ["SAMN002"; "S2.x"; "S2.x.l7"; ""; ""]);
        Sample.nl (Sample.T [""; "S3"; "S3.lane2"; "/data/S3.cleaned.bam";
                             "92eb5ffee6ae2fec"]) ]
      None.
Proof.
  pose (m1 := match load biosample_line ∅ (List.tl SraSample.biosamples) with
              | inr m => m
              | inl _ => ∅
              end).
  pose (m2 := match load md5_line m1 SraSample.md5s with
              | inr m => m
              | inl _ => ∅
              end).
  rewrite (sra_table_rows SraSample.libs SraSample.biosamples SraSample.md5s
             m1 m2); reflexivity.
Defined.

(** X13.  The table is written row by row: at the first library line that
    fails its check (no dot, or a last component that does not start with
    [l]) the function stops with an [AssertionError], leaving the heading
    and the rows of the library lines before it. *)
Theorem sra_table_stops (good : list string) (bad : string)
    (rest biosample_lines md5_lines : list string) (m1 m2 : metadata) :
  load biosample_line ∅ (List.tl biosample_lines) = inr m1 ->
  load md5_line m1 md5_lines = inr m2 ->
  forallb library_ok good = true ->
  library_ok bad = false ->
  prep_sra_table (good ++ bad :: rest) biosample_lines md5_lines
  = SraOutput
      ((Py.join tab sra_header +:+ newline)
       :: List.map (fun line => sra_row m2 line +:+ newline) good)
      (Some AssertionError).
Proof.
  intros H1 H2 Hok Hbad. unfold prep_sra_table. rewrite H1, H2.
  rewrite (write_libraries_stop m2 m2) by auto. reflexivity.
Qed.

Lemma sra_table_stops_witness :
  prep_sra_table [Sample.nl "S1.l1"; Sample.nl "S1.bam"; Sample.nl "S3.lane2"]
    SraSample.biosamples SraSample.md5s
  = SraOutput
      [ Sample.nl (Sample.T sra_header);
        Sample.nl (Sample.T ["SAMN001"; "S1"; "S1.l1"; "bams/S1.cleaned.bam";
                             "0cc175b9c0f1b6a8"]) ]
      (Some AssertionError).
Proof.
  pose (m1 := match load biosample_line ∅ (List.tl SraSample.biosamples) with
              | inr m => m
              | inl _ => ∅
              end).
  pose (m2 := match load md5_line m1 SraSample.md5s with
              | inr m => m
              | inl _ => ∅
              end).
  change [Sample.nl "S1.l1"; Sample.nl "S1.bam"; Sample.nl "S3.lane2"]
    with ([Sample.nl "S1.l1"] ++ Sample.nl "S1.bam" :: [Sample.nl "S3.lane2"])%list.
  rewrite (sra_table_stops [Sample.nl "S1.l1"] (Sample.nl "S1.bam")
             [Sample.nl "S3.lane2"] SraSample.biosamples SraSample.md5s
             m1 m2); reflexivity.
Defined.

(** A library line that passes its check, taken apart at its last dot. *)
Lemma library_parts (line : string) :
  library_ok line = true ->
  exists lane,
    Py.rstrip Py.is_crlf line = sample_of line +:+ "." +:+ lane
    /\ Py.startswith "l" lane = true
    /\ Py.has_char "." lane = false.
Proof.
  unfold library_ok, sample_of. intros H. apply andb_prop in H as [Hlen Hl].
  set (lib := Py.rstrip Py.is_crlf line) in *.
  pose proof (join_split_sep "." lib) as Hj.
  pose proof (split_no_sep "." lib) as Hn.
  destruct (Py.split "." lib) as [|p0 ps] eqn:Ep;
    [exfalso; eapply split_nonempty; exact Ep|].
  assert (Hne : p0 :: ps <> []) by discriminate.
  pose proof (app_removelast_last "" Hne) as Hsplit.
  exists (List.last (p0 :: ps) "").
  split; [|split; [exact Hl|]].
  - rewrite <- Hj at 1. rewrite Hsplit at 1.
    apply join_snoc.
    destruct ps as [|p1 ps']; [cbn in Hlen; discriminate Hlen|].
    cbn. destruct ps'; discriminate.
  - rewrite List.Forall_forall in Hn. apply Hn.
    rewrite Hsplit at 2. apply in_or_app. right. now left.
Qed.

(** X14.  A library line that passes its check is its sample name, a dot,
    and a last component that starts with [l] and holds no dot: the sample
    written in the row is the library id up to its last dot. *)
Theorem library_sample_round_trip (line : string) :
  library_ok line = true ->
  exists lane,
    Py.rstrip Py.is_crlf line = sample_of line +:+ "." +:+ lane
    /\ Py.startswith "l" lane = true
    /\ Py.has_char "." lane = false.
Proof. apply library_parts. Qed.

Lemma library_sample_round_trip_witness :
  exists lane,
    Py.rstrip Py.is_crlf (Sample.nl "S2.x.l7")
    = sample_of (Sample.nl "S2.x.l7") +:+ "." +:+ lane
    /\ Py.startswith "l" lane = true
    /\ Py.has_char "." lane = false.
Proof.
  apply (library_sample_round_trip (Sample.nl "S2.x.l7")). reflexivity.
Defined.

Section BioSamples.

Lemma biosample_line_tab m line :
  has_tab line = true -> exists m', biosample_line m line = inr m'.
Proof.
  unfold has_tab, biosample_line. rewrite <- split_has_sep. intros H.
  destruct (Py.split Py.TAB (Py.rstrip Py.is_crlf line)) as [|k [|v r]];
    try discriminate H. eauto.
Qed.

Lemma biosample_line_no_tab m line :
  has_tab line = false -> biosample_line m line = inl IndexError.
Proof.
  unfold has_tab, biosample_line. rewrite <- split_has_sep. intros H.
  now destruct (Py.split Py.TAB (Py.rstrip Py.is_crlf line)) as [|k [|v r]].
Qed.

Lemma biosample_load_ok m data :
  forallb has_tab data = true -> exists m', load biosample_line m data = inr m'.
Proof.
  revert m. induction data as [|line data IH]; intros m; [cbn; eauto|].
  cbn [forallb load]. intros H. apply andb_prop in H as [Hl Hd].
  destruct (biosample_line_tab m line Hl) as [m' ->]. now apply IH.
Qed.

Lemma biosample_load_fail m data :
  forallb has_tab data = false -> load biosample_line m data = inl IndexError.
Proof.
  revert m. induction data as [|line data IH]; intros m; [discriminate|].
  cbn [forallb load]. intros H.
  destruct (has_tab line) eqn:Hl.
  - destruct (biosample_line_tab m line Hl) as [m' ->]. now apply IH.
  - now rewrite biosample_line_no_tab.
Qed.

Lemma get_item_empty k f : get_item k f (∅ : metadata) = "".
Proof. unfold get_item. now rewrite lookup_empty. Qed.

Lemma biosample_line_get m line m' k :
  biosample_line m line = inr m' ->
  exists c0 v r,
    Py.split Py.TAB (Py.rstrip Py.is_crlf line) = c0 :: v :: r
    /\ get_item k "biosample_accession" m'
       = if String.eqb c0 k then v else get_item k "biosample_accession" m.
Proof.
  unfold biosample_line.
  destruct (Py.split Py.TAB (Py.rstrip Py.is_crlf line)) as [|c0 [|v r]];
    try discriminate.
  intros [= <-]. exists c0, v, r. split; [reflexivity|].
  rewrite get_item_set_item by apply setdefault_is_Some.
  rewrite get_item_setdefault.
  destruct (String.eqb_spec c0 k) as [->|Hne].
  - destruct (decide _) as [_|N]; [reflexivity|exfalso; apply N; auto].
  - destruct (decide _) as [[E _]|_]; [contradiction|reflexivity].
Qed.

Lemma biosample_load_get data :
  forall m k, load biosample_line ∅ data = inr m ->
    get_item k "biosample_accession" m = default "" (biosample_of k data).
Proof.
  induction data as [|line data IH] using rev_ind; intros m k.
  - intros [= <-]. now rewrite get_item_empty.
  - rewrite load_snoc.
    destruct (load biosample_line ∅ data) as [e|m0] eqn:E0; [discriminate|].
    intros Hl. destruct (biosample_line_get m0 line m k Hl)
      as (c0 & v & r & Hsp & ->).
    unfold biosample_of. rewrite rev_app_distr. cbn [app List.rev List.find].
    rewrite Hsp. destruct (String.eqb c0 k); [now rewrite Hsp|].
    apply IH. reflexivity.
Qed.

End BioSamples.

(** X15.  Every line of the BioSample file after the first must hold a tab:
    when one does not (a blank line is enough), [prep_sra_table] fails with
    an [IndexError] before the output file is opened; when all do, the
    BioSample file loads. *)
Theorem biosample_needs_tab (lib_lines biosample_lines md5_lines : list string) :
  (forallb has_tab (List.tl biosample_lines) = false ->
   prep_sra_table lib_lines biosample_lines md5_lines = SraNoOutput IndexError)
  /\ (forallb has_tab (List.tl biosample_lines) = true ->
      exists m1, load biosample_line ∅ (List.tl biosample_lines) = inr m1).
Proof.
  split.
  - intros H. unfold prep_sra_table. now rewrite biosample_load_fail.
  - apply biosample_load_ok.
Qed.

Lemma biosample_needs_tab_witness :
  prep_sra_table SraSample.libs (SraSample.biosamples ++ [newline])
    SraSample.md5s
  = SraNoOutput IndexError.
Proof.
  apply (proj1 (biosample_needs_tab SraSample.libs
                  (SraSample.biosamples ++ [newline]) SraSample.md5s)).
  reflexivity.
Defined.

(** X16.  After the BioSample lines are loaded, the accession of a sample is
    the second column of the last line whose first column is the sample, and
    empty when no line names the sample: a later line replaces an earlier
    one, and columns after the second are ignored. *)
Theorem biosample_last_wins (data : list string) (m : metadata) (k : string) :
  load biosample_line ∅ data = inr m ->
  get_item k "biosample_accession" m = default "" (biosample_of k data).
Proof. apply biosample_load_get. Qed.

Lemma biosample_last_wins_witness :
  get_item "S1" "biosample_accession"
    (match
       load biosample_line ∅
         [Sample.nl (Sample.T ["S1"; "SAMN001"]);
          Sample.nl (Sample.T ["S2"; "SAMN002"]);
          Sample.nl (Sample.T ["S1"; "SAMN009"; "resubmitted"])]
     with
     | inr m => m
     | inl _ => ∅
     end)
  = "SAMN009".
Proof.
  rewrite (biosample_last_wins
             [Sample.nl (Sample.T ["S1"; "SAMN001"]);
              Sample.nl (Sample.T ["S2"; "SAMN002"]);
              Sample.nl (Sample.T ["S1"; "SAMN009"; "resubmitted"])]);
    reflexivity.
Defined.

Section Md5.

Lemma token_inv t :
  token t = true ->
  exists c r, t = String c r /\ Py.isspace c = false
              /\ Py.all_chars (fun c => negb (Py.isspace c)) r = true.
Proof.
  unfold token. destruct t as [|c r]; [discriminate|]. cbn.
  intros H. apply andb_prop in H as [Hc Hr]. apply negb_true_iff in Hc.
  eauto.
Qed.

Lemma split_ws_unfold a r :
  Py.split_ws (String a r)
  = if Py.isspace a then Py.split_ws r
    else match r with
         | "" => [String a ""]
         | String d _ =>
             if Py.isspace d then String a "" :: Py.split_ws r
             else match Py.split_ws r with
                  | w :: ws => String a w :: ws
                  | [] => [String a ""]
                  end
         end.
Proof. destruct r; reflexivity. Qed.

Lemma split_ws_head a t c r :
  Py.isspace a = false ->
  Py.all_chars (fun c => negb (Py.isspace c)) t = true ->
  Py.isspace c = true ->
  Py.split_ws (String a (t +:+ String c r)) = String a t :: Py.split_ws r.
Proof.
  intros Ha Ht Hc. revert a Ha. induction t as [|b t' IH]; intros a Ha.
  - change ("" +:+ String c r) with (String c r).
    rewrite (split_ws_unfold a (String c r)), Ha, Hc.
    now rewrite (split_ws_unfold c r), Hc.
  - cbn in Ht. apply andb_prop in Ht as [Hb Ht'].
    apply negb_true_iff in Hb.
    change (String b t' +:+ String c r) with (String b (t' +:+ String c r)).
    rewrite (split_ws_unfold a (String b (t' +:+ String c r))), Ha, Hb.
    now rewrite (IH Ht' b Hb).
Qed.

Lemma split_ws_token t :
  token t = true -> Py.split_ws t = [t].
Proof.
  intros Ht. apply token_inv in Ht as (a & t' & -> & Ha & Ht').
  revert a Ha. induction t' as [|b t'' IH]; intros a Ha.
  - rewrite split_ws_unfold, Ha. reflexivity.
  - cbn in Ht'. apply andb_prop in Ht' as [Hb Ht''].
    apply negb_true_iff in Hb.
    rewrite (split_ws_unfold a (String b t'')), Ha, Hb.
    now rewrite (IH Ht'' b Hb).
Qed.

Lemma split_ws_two t1 t2 :
  token t1 = true -> token t2 = true ->
  Py.split_ws (t1 +:+ "  " +:+ t2) = [t1; t2].
Proof.
  intros H1 H2. apply token_inv in H1 as (a & t' & -> & Ha & Ht').
  change (String a t' +:+ "  " +:+ t2)
    with (String a (t' +:+ String " " (String " " t2))).
  rewrite split_ws_head by (assumption || reflexivity).
  rewrite (split_ws_unfold " " t2).
  change (Py.isspace " ") with true. cbn iota.
  now rewrite split_ws_token.
Qed.

Lemma token_not_crlf t u :
  token t = true ->
  Py.rstrip Py.is_crlf (u +:+ t +:+ newline) = u +:+ t.
Proof.
  intros Ht. rewrite <- append_assoc_s.
  rewrite rstrip_app_all by reflexivity.
  assert (Hid : Py.rstrip Py.is_crlf t = t).
  { apply rstrip_id. unfold token in Ht. apply andb_prop in Ht as [_ Ht].
    apply (all_chars_impl (fun c => negb (Py.isspace c))); [|exact Ht].
    intros c Hc. apply negb_true_iff in Hc. apply negb_true_iff.
    destruct c as [[|] [|] [|] [|] [|] [|] [|] [|]];
      vm_compute in Hc |- *; congruence. }
  rewrite rstrip_app_keep; rewrite Hid; [reflexivity|].
  apply token_inv in Ht as (c & r & -> & _). discriminate.
Qed.

(** A well-formed line of the MD5 file files its two fields under the
    sample named by the file. *)
Lemma md5_line_ok (m : metadata) sum path s :
  token sum = true -> token path = true ->
  PosixPath.basename path = s +:+ ".cleaned.bam" ->
  md5_line m (sum +:+ "  " +:+ path +:+ newline)
  = inr (set_item s "MD5_checksum" sum
           (set_item s "filename" path (setdefault s m))).
Proof.
  intros Hs Hp Hb. unfold md5_line.
  replace (sum +:+ "  " +:+ path +:+ newline)
    with ((sum +:+ "  ") +:+ path +:+ newline)
    by now rewrite !append_assoc_s.
  rewrite token_not_crlf by assumption.
  rewrite append_assoc_s, split_ws_two by assumption.
  rewrite Hb, endswith_suffix, slice_to_suffix. reflexivity.
Qed.

End Md5.

(** X17.  A line of the MD5 file made of a checksum, two spaces and a path
    whose base name is [SAMPLE.cleaned.bam] files the path and the checksum
    under SAMPLE and touches nothing else; when the base name does not end
    in [.cleaned.bam] the line fails the [assert]. *)
Theorem md5_line_registers (m : metadata) (sum path : string) :
  token sum = true ->
  token path = true ->
  (Py.endswith ".cleaned.bam" (PosixPath.basename path) = false ->
   md5_line m (sum +:+ "  " +:+ path +:+ newline) = inl AssertionError)
  /\ (forall s, PosixPath.basename path = s +:+ ".cleaned.bam" ->
        exists m',
          md5_line m (sum +:+ "  " +:+ path +:+ newline) = inr m'
          /\ get_item s "filename" m' = path
          /\ get_item s "MD5_checksum" m' = sum
          /\ forall k f,
               k <> s \/ (f <> "filename" /\ f <> "MD5_checksum") ->
               get_item k f m' = get_item k f m).
Proof.
  intros Hs Hp. split.
  - intros He. unfold md5_line.
    replace (sum +:+ "  " +:+ path +:+ newline)
      with ((sum +:+ "  ") +:+ path +:+ newline)
      by now rewrite !append_assoc_s.
    rewrite token_not_crlf by assumption.
    rewrite append_assoc_s, split_ws_two by assumption.
    now rewrite He.
  - intros s Hb. rewrite (md5_line_ok m sum path s Hs Hp Hb).
    eexists. split; [reflexivity|].
    assert (H1 : is_Some (setdefault s m !! s)) by apply setdefault_is_Some.
    assert (H2 : is_Some (set_item s "filename" path (setdefault s m) !! s))
      by now apply set_item_is_Some.
    assert (Hget : forall k f,
               get_item k f
                 (set_item s "MD5_checksum" sum
                    (set_item s "filename" path (setdefault s m)))
               = if decide (s = k /\ "MD5_checksum" = f) then sum
                 else if decide (s = k /\ "filename" = f) then path
                      else get_item k f m).
    { intros k f. rewrite get_item_set_item by assumption.
      destruct (decide (s = k /\ "MD5_checksum" = f)); [reflexivity|].
      rewrite get_item_set_item by assumption.
      destruct (decide (s = k /\ "filename" = f)); [reflexivity|].
      apply get_item_setdefault. }
    repeat split.
    + rewrite Hget.
      destruct (decide (s = s /\ "MD5_checksum" = "filename")) as [[_ E]|_];
        [discriminate E|].
      destruct (decide (s = s /\ "filename" = "filename")) as [_|N];
        [reflexivity|exfalso; apply N; auto].
    + rewrite Hget.
      destruct (decide (s = s /\ "MD5_checksum" = "MD5_checksum")) as [_|N];
        [reflexivity|exfalso; apply N; auto].
    + intros k f Hkf. rewrite Hget.
      destruct (decide (s = k /\ "MD5_checksum" = f)) as [[E1 E2]|_].
      { exfalso. destruct Hkf as [Hk|[_ Hf]]; congruence. }
      destruct (decide (s = k /\ "filename" = f)) as [[E1 E2]|_].
      { exfalso. destruct Hkf as [Hk|[Hf _]]; congruence. }
      reflexivity.
Qed.

Lemma md5_line_registers_witness :
  md5_line ∅ (Sample.nl "0cc175b9c0f1b6a8  bams/S1.fastq")
  = inl AssertionError.
Proof.
  apply (proj1 (md5_line_registers ∅ "0cc175b9c0f1b6a8" "bams/S1.fastq"
                  eq_refl eq_refl)).
  reflexivity.
Defined.

(** ** The columns of the SRA table *)

Section Columns.

Local Abbreviation clean m := (forall k f, no_tab (get_item k f m) = true).

Lemma no_tab_has_char x : no_tab x = negb (Py.has_char Py.TAB x).
Proof.
  unfold no_tab. induction x as [|c r IH]; [reflexivity|].
  cbn. rewrite IH. now destruct (Ascii.eqb c Py.TAB).
Qed.

Lemma nospace_no_tab w :
  Py.all_chars (fun c => negb (Py.isspace c)) w = true -> no_tab w = true.
Proof.
  apply all_chars_impl. intros c Hc. apply negb_true_iff in Hc.
  apply negb_true_iff. destruct (Ascii.eqb_spec c Py.TAB) as [->|];
    [discriminate Hc|reflexivity].
Qed.

Lemma split_ws_nospace x :
  Forall (fun w => Py.all_chars (fun c => negb (Py.isspace c)) w = true)
    (Py.split_ws x).
Proof.
  induction x as [|a r IH]; [constructor|].
  rewrite split_ws_unfold. destruct (Py.isspace a) eqn:Ha; [exact IH|].
  assert (H1 : Py.all_chars (fun c => negb (Py.isspace c)) (String a "")
               = true) by (cbn; now rewrite Ha).
  destruct r as [|d r']; [repeat constructor; exact H1|].
  destruct (Py.isspace d); [constructor; [exact H1|exact IH]|].
  destruct (Py.split_ws (String d r')) as [|w ws];
    [repeat constructor; exact H1|].
  inversion IH as [|? ? Hw Hws]; subst. constructor; [|exact Hws].
  cbn. now rewrite Ha, Hw.
Qed.

Lemma clean_empty : clean (∅ : metadata).
Proof. intros k f. now rewrite get_item_empty. Qed.

Lemma clean_set_item k f v (m : metadata) :
  clean m -> no_tab v = true -> clean (set_item k f v (setdefault k m)).
Proof.
  intros Hm Hv k' f'. rewrite get_item_set_item by apply setdefault_is_Some.
  destruct (decide _); [exact Hv|]. rewrite get_item_setdefault. apply Hm.
Qed.

Lemma clean_set_item2 k f v f2 v2 (m : metadata) :
  clean m -> no_tab v = true -> no_tab v2 = true ->
  clean (set_item k f2 v2 (set_item k f v (setdefault k m))).
Proof.
  intros Hm Hv Hv2 k' f'.
  rewrite get_item_set_item
    by (apply set_item_is_Some, setdefault_is_Some).
  destruct (decide _); [exact Hv2|]. now apply clean_set_item.
Qed.

Lemma clean_biosample m line m' :
  clean m -> biosample_line m line = inr m' -> clean m'.
Proof.
  intros Hm. unfold biosample_line.
  pose proof (split_no_tab (Py.rstrip Py.is_crlf line)) as Hn.
  destruct (Py.split Py.TAB (Py.rstrip Py.is_crlf line)) as [|c0 [|v r]];
    try discriminate.
  intros [= <-]. apply clean_set_item; [exact Hm|].
  inversion Hn as [|? ? _ Hn']; subst. now inversion Hn'.
Qed.

Lemma clean_md5 m line m' :
  clean m -> md5_line m line = inr m' -> clean m'.
Proof.
  intros Hm. unfold md5_line.
  pose proof (split_ws_nospace (Py.rstrip Py.is_crlf line)) as Hn.
  destruct (Py.split_ws (Py.rstrip Py.is_crlf line)) as [|sum [|path r]];
    try discriminate.
  destruct (Py.endswith _ _); [|discriminate].
  intros [= <-].
  inversion Hn as [|? ? Hsum Hn']; subst.
  inversion Hn' as [|? ? Hpath _]; subst.
  apply clean_set_item2; auto using nospace_no_tab.
Qed.

Lemma clean_load step m lines m' :
  (forall m line m', clean m -> step m line = inr m' -> clean m') ->
  clean m -> load step m lines = inr m' -> clean m'.
Proof.
  intros Hstep. revert m. induction lines as [|line lines IH]; intros m Hm.
  - now intros [= <-].
  - cbn [load]. destruct (step m line) as [e|m1] eqn:E; [discriminate|].
    apply IH. eapply Hstep; eassumption.
Qed.

End Columns.

(** X18.  A row of the table has exactly its five cells as tab-separated
    columns whenever the library line holds no tab: no value loaded from
    the BioSample or MD5 file can hold one. *)
Theorem sra_row_five_columns (biosample_lines md5_lines : list string)
    (m1 m2 : metadata) (line : string) :
  load biosample_line ∅ (List.tl biosample_lines) = inr m1 ->
  load md5_line m1 md5_lines = inr m2 ->
  library_ok line = true ->
  has_tab line = false ->
  Py.split Py.TAB (sra_row m2 line)
  = [ get_item (sample_of line) "biosample_accession" m2;
      sample_of line;
      Py.rstrip Py.is_crlf line;
      get_item (sample_of line) "filename" m2;
      get_item (sample_of line) "MD5_checksum" m2 ].
Proof.
  intros H1 H2 Hok Htab.
  assert (Hc1 : forall k f, no_tab (get_item k f m1) = true).
  { eapply clean_load; [apply clean_biosample|apply clean_empty|exact H1]. }
  assert (Hc2 : forall k f, no_tab (get_item k f m2) = true).
  { eapply clean_load; [apply clean_md5|exact Hc1|exact H2]. }
  assert (Hlib : no_tab (Py.rstrip Py.is_crlf line) = true).
  { rewrite no_tab_has_char. unfold has_tab in Htab. now rewrite Htab. }
  assert (Hs : no_tab (sample_of line) = true).
  { destruct (library_parts line Hok) as (lane & Heq & _).
    rewrite no_tab_has_char in Hlib |- *. rewrite Heq in Hlib.
    rewrite has_char_app in Hlib.
    destruct (Py.has_char Py.TAB (sample_of line)); [discriminate|].
    reflexivity. }
  unfold sra_row. apply split_join; [discriminate|].
  repeat constructor; auto.
Qed.

Lemma sra_row_five_columns_witness :
  Py.split Py.TAB
    (sra_row
       (match
          load md5_line
            (match load biosample_line ∅ (List.tl SraSample.biosamples) with
             | inr m => m
             | inl _ => ∅
             end) SraSample.md5s
        with
        | inr m => m
        | inl _ => ∅
        end) (Sample.nl "S1.l1"))
  = ["SAMN001"; "S1"; "S1.l1"; "bams/S1.cleaned.bam"; "0cc175b9c0f1b6a8"].
Proof.
  rewrite (sra_row_five_columns SraSample.biosamples SraSample.md5s
             (match load biosample_line ∅ (List.tl SraSample.biosamples) with
              | inr m => m
              | inl _ => ∅
              end)); reflexivity.
Defined.
